(** * Socialauto: the API access layer of [App.py]

    A shallow embedding of the request function [make_api_request], the
    memoising decorator it is wrapped in, the loaders built on it
    ([load_profiles], [load_accounts], [validate_api_key]) and the event
    handlers of [main], [show_profiles] and [show_posts] that call them,
    followed by the properties of the access layer. *)

From Stdlib Require Import ZArith String Ascii List Bool Lia.
From stdpp Require Import base decidable option countable list strings gmap pretty.

Set Warnings "-register-all".
Local Open Scope Z_scope.
Local Open Scope string_scope.

(** ** Python values *)

Module Py.

(** What [response.json()] decodes to, and what the handlers build as request
    bodies.  [JNull] is Python's [None]; [JObj] is a [dict] in insertion
    order.  Numbers are the integers: the access layer never computes with a
    payload number. *)
Inductive json : Type :=
  | JNull
  | JBool (b : bool)
  | JInt (n : Z)
  | JStr (s : string)
  | JArr (items : list json)
  | JObj (fields : list (string * json)).

(** Induction over values that also visits array items and field values. *)
Section json_rect.
Variable P : json -> Prop.
Hypothesis Hnull : P JNull.
Hypothesis Hbool : forall b, P (JBool b).
Hypothesis Hint : forall n, P (JInt n).
Hypothesis Hstr : forall s, P (JStr s).
Hypothesis Harr : forall items, Forall P items -> P (JArr items).
Hypothesis Hobj : forall fields, Forall (fun kv => P (snd kv)) fields -> P (JObj fields).

Fixpoint json_ind' (j : json) : P j :=
  match j with
  | JNull => Hnull
  | JBool b => Hbool b
  | JInt n => Hint n
  | JStr s => Hstr s
  | JArr items =>
      Harr items
        ((fix go (l : list json) : Forall P l :=
            match l with
            | [] => @List.Forall_nil json P
            | x :: l' => @List.Forall_cons json P x l' (json_ind' x) (go l')
            end) items)
  | JObj fields =>
      Hobj fields
        ((fix go (l : list (string * json)) : Forall (fun kv => P (snd kv)) l :=
            match l with
            | [] => @List.Forall_nil (string * json) (fun kv => P (snd kv))
            | kv :: l' =>
                @List.Forall_cons (string * json) (fun kv => P (snd kv)) kv l'
                  (json_ind' (snd kv)) (go l')
            end) fields)
  end.
End json_rect.

(** Values are coded as trees so that requests can key a finite map. *)
Definition leaf : Type := (bool + Z + string)%type.

Fixpoint json_enc (j : json) : gen_tree leaf :=
  match j with
  | JNull => GenNode 0 []
  | JBool b => GenLeaf (inl (inl b))
  | JInt n => GenLeaf (inl (inr n))
  | JStr s => GenLeaf (inr s)
  | JArr items => GenNode 1 (List.map json_enc items)
  | JObj fields =>
      GenNode 2 (List.map (fun kv => GenNode 3 [GenLeaf (inr (fst kv)); json_enc (snd kv)]) fields)
  end.

Fixpoint json_dec (t : gen_tree leaf) : json :=
  match t with
  | GenLeaf (inl (inl b)) => JBool b
  | GenLeaf (inl (inr n)) => JInt n
  | GenLeaf (inr s) => JStr s
  | GenNode 1 ts => JArr (List.map json_dec ts)
  | GenNode 2 ts =>
      JObj (List.map (fun t' =>
                   match t' with
                   | GenNode _ [GenLeaf (inr k); v] => (k, json_dec v)
                   | _ => (EmptyString, JNull)
                   end) ts)
  | GenNode _ _ => JNull
  end.

Lemma json_dec_enc (j : json) : json_dec (json_enc j) = j.
Proof.
  induction j as [| b | n | s | items IH | fields IH] using json_ind'; simpl; auto.
  - f_equal. induction IH as [| x l Hx _ IHl]; simpl; [reflexivity|].
    now rewrite Hx, IHl.
  - f_equal. induction IH as [| [k v] l Hx _ IHl]; simpl; [reflexivity|].
    simpl in Hx. now rewrite Hx, IHl.
Qed.

#[global] Instance json_eq_dec : EqDecision json.
Proof.
  intros a b. destruct (decide (json_enc a = json_enc b)) as [E | N].
  - left. rewrite <- (json_dec_enc a), <- (json_dec_enc b). now rewrite E.
  - right. intros ->. now apply N.
Defined.

#[global] Instance json_countable : Countable json :=
  inj_countable' json_enc json_dec json_dec_enc.

(** Truth value of a decoded payload in [if data:]. *)
Definition truthy (j : json) : bool :=
  match j with
  | JNull => false
  | JBool b => b
  | JInt n => negb (Z.eqb n 0)
  | JStr EmptyString => false
  | JStr (String _ _) => true
  | JArr [] => false
  | JArr (_ :: _) => true
  | JObj [] => false
  | JObj (_ :: _) => true
  end.

(** Truth value of a [str]. *)
Definition str_truthy (s : string) : bool :=
  match s with EmptyString => false | String _ _ => true end.

(** Truth value of a value that is [None] or a [str]. *)
Definition opt_truthy (e : option string) : bool :=
  match e with None => false | Some s => str_truthy s end.

(** [a or b] on such values. *)
Definition py_or (a b : option string) : option string :=
  if opt_truthy a then a else b.

(** How an f-string renders a value that is [None] or a [str]. *)
Definition fmt_opt (e : option string) : string :=
  match e with None => "None" | Some s => s end.

(** [d.get(k)] on the fields of a [dict]. *)
Fixpoint dict_get (k : string) (fields : list (string * json)) : option json :=
  match fields with
  | [] => None
  | (k', v) :: rest => if String.eqb k k' then Some v else dict_get k rest
  end.

(** [d.get(k, default)]. *)
Definition dict_get_default (k : string) (default : json) (fields : list (string * json)) : json :=
  match dict_get k fields with Some v => v | None => default end.

(** Exceptions that escape the loaders and handlers, by class. *)
Inductive exn : Type := AttributeError | TypeError | KeyError | IndexError.

(** A computation that returns or raises. *)
Inductive exec (A : Type) : Type :=
  | Ret (a : A)
  | Raise (e : exn).
Arguments Ret {A} a.
Arguments Raise {A} e.

(** [v.get(k)]: only a [dict] has the method. *)
Definition get_method (v : json) (k : string) : exec json :=
  match v with
  | JObj fields => Ret (match dict_get k fields with Some x => x | None => JNull end)
  | _ => Raise AttributeError
  end.

(** [v.get(k, default)]. *)
Definition get_method_default (v : json) (k : string) (default : json) : exec json :=
  match v with
  | JObj fields => Ret (dict_get_default k default fields)
  | _ => Raise AttributeError
  end.

(** [v[0]]. *)
Definition subscript_0 (v : json) : exec json :=
  match v with
  | JArr (x :: _) => Ret x
  | JArr [] => Raise IndexError
  | JStr (String a _) => Ret (JStr (String a EmptyString))
  | JStr EmptyString => Raise IndexError
  | JObj _ => Raise KeyError
  | _ => Raise TypeError
  end.

(** [v[k]] for a string key. *)
Definition subscript_key (v : json) (k : string) : exec json :=
  match v with
  | JObj fields => match dict_get k fields with Some x => Ret x | None => Raise KeyError end
  | _ => Raise TypeError
  end.

(** A [str] is held as the bytes of its UTF-8 encoding.  The characters of
    a text are its bytes grouped at every byte that is not a continuation
    byte (10xxxxxx). *)
Definition byte_value (a : ascii) : Z := Z.of_nat (nat_of_ascii a).

Definition is_continuation (a : ascii) : bool :=
  ((128 <=? byte_value a) && (byte_value a <? 192))%Z.

Fixpoint chars (s : string) : list string :=
  match s with
  | EmptyString => []
  | String a rest =>
      let following := chars rest in
      let joins :=
        match rest with
        | String b _ => is_continuation b
        | EmptyString => false
        end in
      match following with
      | c :: cs => if joins then String a c :: cs else String a EmptyString :: c :: cs
      | [] => [String a EmptyString]
      end
  end.

(** [len(s)]: the number of characters. *)
Definition py_len (s : string) : nat := length (chars s).

(** The code point a character encodes, none for bytes that are no
    well-formed encoding. *)
Definition code_point (c : string) : option Z :=
  match List.map byte_value (list_ascii_of_string c) with
  | [a] => if (a <? 128)%Z then Some a else None
  | [a; b] =>
      let n := ((a - 192) * 64 + (b - 128))%Z in
      if ((192 <=? a) && (a <? 224) && (128 <=? n))%Z then Some n else None
  | [a; b; c] =>
      let n := ((a - 224) * 4096 + (b - 128) * 64 + (c - 128))%Z in
      if ((224 <=? a) && (a <? 240) && (2048 <=? n))%Z then Some n else None
  | [a; b; c; d] =>
      let n := ((a - 240) * 262144 + (b - 128) * 4096 + (c - 128) * 64 + (d - 128))%Z in
      if ((240 <=? a) && (a <? 248) && (65536 <=? n))%Z then Some n else None
  | _ => None
  end.

(** The code points that [str.isspace()] accepts, which are the ones
    [str.strip()] removes. *)
Definition isspace_code (n : Z) : bool :=
  (((9 <=? n) && (n <=? 13)) || ((28 <=? n) && (n <=? 32))
   || (n =? 133) || (n =? 160) || (n =? 5760)
   || ((8192 <=? n) && (n <=? 8202))
   || (n =? 8232) || (n =? 8233) || (n =? 8239) || (n =? 8287) || (n =? 12288))%Z.

Definition isspace (c : string) : bool :=
  match code_point c with
  | Some n => isspace_code n
  | None => false
  end.

Fixpoint drop_spaces (cs : list string) : list string :=
  match cs with
  | [] => []
  | c :: rest => if isspace c then drop_spaces rest else cs
  end.

Fixpoint join (cs : list string) : string :=
  match cs with
  | [] => EmptyString
  | c :: rest => c ++ join rest
  end.

Definition lstrip (s : string) : string := join (drop_spaces (chars s)).

Definition rstrip (s : string) : string :=
  join (List.rev (drop_spaces (List.rev (chars s)))).

(** [s.strip()]. *)
Definition strip (s : string) : string :=
  join (List.rev (drop_spaces (List.rev (drop_spaces (chars s))))).

(** Whether [needle] occurs in [hay]. *)
Fixpoint contains (needle hay : string) : bool :=
  String.prefix needle hay ||
  match hay with
  | EmptyString => false
  | String _ rest => contains needle rest
  end.

End Py.
Import Py.

(** ** Requests, responses and the transport *)

Module Http.

(** One [make_api_request] call.  The six fields before [passed] are the
    values the body sees, with the defaults filled in for the arguments the
    call leaves out: [method="GET"], [data=None], [params=None],
    [files=None], [use_cache=True].  [passed] lists the names of the
    optional arguments the call writes out, in the order it writes them:
    the decorator keys on the arguments as passed, so two calls with the
    same values that write out different arguments are different keys. *)
Record Request : Type := mkRequest {
  endpoint : string;
  method : string;
  data : json;
  params : json;
  files : option (list (string * string));
  use_cache : bool;
  passed : list string
}.

(** The four ways [App.py] writes a call: [f(ep)], [f(ep, params=ps)],
    [f(ep, "POST", body)] and [f(ep, "POST", files=fs)]. *)
Definition get (ep : string) : Request := mkRequest ep "GET" JNull JNull None true [].
Definition get_with (ep : string) (ps : json) : Request :=
  mkRequest ep "GET" JNull ps None true ["params"].
Definition post (ep : string) (body : json) : Request :=
  mkRequest ep "POST" body JNull None true ["method"; "data"].
Definition post_files (ep : string) (fs : list (string * string)) : Request :=
  mkRequest ep "POST" JNull JNull (Some fs) true ["method"; "files"].

Definition request_tuple (r : Request) :
    string * string * json * json * option (list (string * string)) * bool * list string :=
  (endpoint r, method r, data r, params r, files r, use_cache r, passed r).

Definition tuple_request
    (t : string * string * json * json * option (list (string * string)) * bool
         * list string) : Request :=
  let '(e, m, d, p, f, u, w) := t in mkRequest e m d p f u w.

Lemma tuple_request_tuple (r : Request) : tuple_request (request_tuple r) = r.
Proof. now destruct r. Qed.

#[global] Instance request_eq_dec : EqDecision Request.
Proof.
  intros a b. destruct (decide (request_tuple a = request_tuple b)) as [E | N].
  - left. rewrite <- (tuple_request_tuple a), <- (tuple_request_tuple b). now rewrite E.
  - right. intros ->. now apply N.
Defined.

(** A request as one tree, so that its code as a key stays short. *)
Definition text_leaf (t : string) : gen_tree leaf := GenLeaf (inr t).

Definition leaf_text (t : gen_tree leaf) : string :=
  match t with GenLeaf (inr x) => x | _ => EmptyString end.

Definition pair_tree (kv : string * string) : gen_tree leaf :=
  GenNode 0 [text_leaf (fst kv); text_leaf (snd kv)].

Definition tree_pair (t : gen_tree leaf) : string * string :=
  match t with
  | GenNode _ [k; v] => (leaf_text k, leaf_text v)
  | _ => (EmptyString, EmptyString)
  end.

Definition request_tree (r : Request) : gen_tree leaf :=
  GenNode 0 [text_leaf (endpoint r); text_leaf (method r);
             json_enc (data r); json_enc (params r);
             match files r with
             | None => GenNode 0 []
             | Some fs => GenNode 1 (List.map pair_tree fs)
             end;
             GenLeaf (inl (inl (use_cache r)));
             GenNode 0 (List.map text_leaf (passed r))].

Definition tree_request (t : gen_tree leaf) : Request :=
  match t with
  | GenNode _ [e; m; d; p; f; u; w] =>
      mkRequest (leaf_text e) (leaf_text m) (json_dec d) (json_dec p)
        match f with
        | GenNode 1 fs => Some (List.map tree_pair fs)
        | _ => None
        end
        match u with GenLeaf (inl (inl b)) => b | _ => true end
        match w with GenNode _ ws => List.map leaf_text ws | _ => [] end
  | _ => mkRequest EmptyString EmptyString JNull JNull None true []
  end.

Lemma tree_request_tree (r : Request) : tree_request (request_tree r) = r.
Proof.
  destruct r as [e m d p f u w]. unfold request_tree, tree_request. simpl.
  rewrite !json_dec_enc.
  assert (Hw : List.map leaf_text (List.map text_leaf w) = w).
  { induction w as [|x w IH]; simpl; [reflexivity | now rewrite IH]. }
  rewrite Hw. destruct f as [fs|]; [|reflexivity].
  assert (Hfs : List.map tree_pair (List.map pair_tree fs) = fs).
  { induction fs as [|[k v] fs IH]; simpl; [reflexivity | now rewrite IH]. }
  now rewrite Hfs.
Qed.

#[global] Instance request_countable : Countable Request :=
  inj_countable' request_tree tree_request tree_request_tree.

(** What is handed to the [requests] library for one call. *)
Record HttpCall : Type := mkCall {
  hc_verb : string;
  hc_url : string;
  hc_headers : list (string * string);
  hc_params : json;
  hc_json : json;
  hc_files : option (list (string * string));
  hc_timeout : Z
}.

(** A response: its status, its raw text, and what [response.json()] gives,
    the decoded value or the text of the exception it raises. *)
Record Response : Type := mkResponse {
  status_code : Z;
  text : string;
  decoded : string + json
}.

(** How a call to the [requests] library ends. *)
Inductive Outcome : Type :=
  | Responded (resp : Response)
  | RaisedTimeout
  | RaisedConnectionError
  | RaisedOther (detail : string).

(** The pair [(data, error)] that every call returns; [None] data is [JNull]. *)
Definition Result : Type := (json * option string)%type.

End Http.
Import Http.

(** ** The session, the cache and the request function *)

Module App.

(** What the page shows through [st.success], [st.error], [st.markdown] and
    [st.info]. *)
Inductive UiEvent : Type :=
  | UiSuccess (m : string)
  | UiError (m : string)
  | UiMarkdown (m : string)
  | UiInfo (m : string).

(** The text of a shown message. *)
Definition shown_text (e : UiEvent) : string :=
  match e with UiSuccess m | UiError m | UiMarkdown m | UiInfo m => m end.

(** [st.session_state] together with the process state around it: the store
    of the [st.cache_data] decorator on [make_api_request], the calls handed
    to [requests] so far (oldest first), how many times the body of
    [make_api_request] has run, and what the page has shown. *)
Record State : Type := mkState {
  api_key : string;
  profiles : json;
  accounts : json;
  last_refresh : option Z;
  cache : gmap Request (Result * Z);
  http_log : list HttpCall;
  client_runs : nat;
  ui : list UiEvent
}.

(** Lines 70-79: the session at its start. *)
Definition initial : State :=
  mkState "" (JArr []) (JArr []) None ∅ [] 0%nat [].

Definition set_api_key (k : string) (s : State) : State :=
  mkState k (profiles s) (accounts s) (last_refresh s) (cache s) (http_log s) (client_runs s) (ui s).
Definition set_profiles (v : json) (s : State) : State :=
  mkState (api_key s) v (accounts s) (last_refresh s) (cache s) (http_log s) (client_runs s) (ui s).
Definition set_accounts (v : json) (s : State) : State :=
  mkState (api_key s) (profiles s) v (last_refresh s) (cache s) (http_log s) (client_runs s) (ui s).
Definition set_last_refresh (t : option Z) (s : State) : State :=
  mkState (api_key s) (profiles s) (accounts s) t (cache s) (http_log s) (client_runs s) (ui s).
Definition set_cache (c : gmap Request (Result * Z)) (s : State) : State :=
  mkState (api_key s) (profiles s) (accounts s) (last_refresh s) c (http_log s) (client_runs s) (ui s).
Definition log_call (c : HttpCall) (s : State) : State :=
  mkState (api_key s) (profiles s) (accounts s) (last_refresh s) (cache s) (http_log s ++ [c])%list
    (client_runs s) (ui s).
Definition count_run (s : State) : State :=
  mkState (api_key s) (profiles s) (accounts s) (last_refresh s) (cache s) (http_log s)
    (S (client_runs s)) (ui s).
Definition show (e : UiEvent) (s : State) : State :=
  mkState (api_key s) (profiles s) (accounts s) (last_refresh s) (cache s) (http_log s)
    (client_runs s) (ui s ++ [e])%list.

(** The POST calls sent so far. *)
Definition posts_sent (s : State) : list HttpCall :=
  List.filter (fun c => String.eqb (hc_verb c) "POST") (http_log s).

(** Handlers and loaders: state passing with exceptions. *)
Definition M (A : Type) : Type := State -> exec A * State.

Definition ret {A} (a : A) : M A := fun s => (Ret a, s).
Definition bind {A B} (m : M A) (k : A -> M B) : M B :=
  fun s => match m s with
           | (Ret a, s') => k a s'
           | (Raise e, s') => (Raise e, s')
           end.
Definition lift {A} (e : exec A) : M A := fun s => (e, s).
Definition gets {A} (f : State -> A) : M A := fun s => (Ret (f s), s).
Definition modify (f : State -> State) : M unit := fun s => (Ret tt, f s).

Notation "x <- m ;; k" := (bind m (fun x => k))
  (at level 62, m at next level, right associativity).
Notation "m ;;; k" := (bind m (fun _ => k))
  (at level 62, right associativity).

(** [for x in xs: f(x)]. *)
Fixpoint for_each {A} (xs : list A) (f : A -> M unit) : M unit :=
  match xs with
  | [] => ret tt
  | x :: rest => f x ;;; for_each rest f
  end.

(** One selected account of the post form (lines 711-714), with the Reddit
    options of lines 743-748 when they were attached. *)
Record AccData : Type := mkAccData {
  platform : string;
  accountId : json;
  platformSpecificData : option (list (string * json))
}.

(** The post form at submission. *)
Record PostForm : Type := mkPostForm {
  content : string;
  selected_accounts : list AccData;
  scheduled_for : option string;
  timezone : string;
  media_url : option string
}.

(** What the program runs against.  [remote] is the far end: what a call
    handed to [requests] ends in, given the calls made before it.
    [repr_container] is [str()] of a decoded [list] or [dict] and
    [unbound_local_text] the text of the [UnboundLocalError] raised when
    [response] is read unassigned: both belong to the Python runtime. *)
Record Env : Type := mkEnv {
  remote : list HttpCall -> HttpCall -> Outcome;
  repr_container : json -> string;
  unbound_local_text : string
}.

Section Environment.

Variable env : Env.

(** [str(v)], as an f-string renders a decoded value. *)
Definition py_str (v : json) : string :=
  match v with
  | JNull => "None"
  | JBool true => "True"
  | JBool false => "False"
  | JInt n => pretty n
  | JStr s => s
  | _ => repr_container env v
  end.

Definition base_url : string := "https://getlate.dev/api/v1".

(** Lines 91-94. *)
Definition headers (key : string) : list (string * string) :=
  [("Authorization", "Bearer " ++ key); ("Content-Type", "application/json")].

(** Line 102: [headers.pop("Content-Type", None)]. *)
Definition pop_content_type (hs : list (string * string)) : list (string * string) :=
  List.filter (fun h => negb (String.eqb (fst h) "Content-Type")) hs.

(** [if files:]. *)
Definition files_truthy (fs : option (list (string * string))) : bool :=
  match fs with Some (_ :: _) => true | _ => false end.

(** Lines 97-109: the call made for a request, none for a method outside
    GET, POST, PUT and DELETE. *)
Definition dispatch (key : string) (r : Request) : option HttpCall :=
  let url := base_url ++ endpoint r in
  if String.eqb (method r) "GET" then
    Some (mkCall "GET" url (headers key) (params r) JNull None 30)
  else if String.eqb (method r) "POST" then
    if files_truthy (files r) then
      Some (mkCall "POST" url (pop_content_type (headers key)) JNull JNull (files r) 60)
    else
      Some (mkCall "POST" url (headers key) JNull (data r) None 30)
  else if String.eqb (method r) "PUT" then
    Some (mkCall "PUT" url (headers key) JNull (data r) None 30)
  else if String.eqb (method r) "DELETE" then
    Some (mkCall "DELETE" url (headers key) JNull JNull None 30)
  else None.

(** The call a GET without parameters makes, as the loaders issue it. *)
Definition get_call (key ep : string) : HttpCall :=
  mkCall "GET" (base_url ++ ep) (headers key) JNull JNull None 30.

(** Lines 120-123: [response.json().get('message', response.text)], with
    [response.text] when that raises. *)
Definition error_detail (resp : Response) : string :=
  match decoded resp with
  | inr (JObj fields) => py_str (dict_get_default "message" (JStr (text resp)) fields)
  | _ => text resp
  end.

(** Lines 111-131: from the end of the call to the returned pair. *)
Definition classify (o : Outcome) : Result :=
  match o with
  | Responded resp =>
      let code := status_code resp in
      if (code =? 200)%Z || (code =? 201)%Z then
        match decoded resp with
        | inr v => (v, None)
        | inl e => (JNull, Some ("Request failed: " ++ e))
        end
      else if (code =? 401)%Z then (JNull, Some "Unauthorized: Please check your API key")
      else if (code =? 429)%Z then (JNull, Some "Rate limit exceeded. Please try again later")
      else if (code =? 500)%Z then (JNull, Some "Server error. Please try again later")
      else (JNull, Some ("Error " ++ pretty code ++ ": " ++ error_detail resp))
  | RaisedTimeout => (JNull, Some "Request timed out. Please try again")
  | RaisedConnectionError =>
      (JNull, Some "Connection error. Please check your internet connection")
  | RaisedOther e => (JNull, Some ("Request failed: " ++ e))
  end.

(** Lines 83-131: the function under the decorator. *)
Definition make_api_request_body (r : Request) (s : State) : Result * State :=
  let s := count_run s in
  if negb (str_truthy (api_key s)) then ((JNull, Some "API key not provided"), s)
  else
    match dispatch (api_key s) r with
    | Some c => (classify (remote env (http_log s) c), log_call c s)
    | None => ((JNull, Some ("Request failed: " ++ unbound_local_text env)), s)
    end.

(** Line 82: [ttl=300]. *)
Definition ttl : Z := 300.

(** An entry stored at [stamp] is still served at [now]. *)
Definition fresh (now stamp : Z) : bool := bool_decide (now - stamp < ttl).

(** The value the store serves at [now] for a call, if any. *)
Definition cached (now : Z) (r : Request) (s : State) : option Result :=
  match cache s !! r with
  | Some (v, stamp) => if fresh now stamp then Some v else None
  | None => None
  end.

(** Run the body and keep what it returned under the call's arguments.
    [cache] here holds every pair stored since the last clearing, the ones
    past their time included: they are never served ([cached]), and the
    library's dropping of them at a write is written out in
    [fetch_and_store_reaping] below. *)
Definition fetch_and_store (now : Z) (r : Request) (s : State) : Result * State :=
  let '(v, s') := make_api_request_body r s in
  (v, set_cache (<[r := (v, now)]> (cache s')) s').

(** Line 82: [make_api_request] as callers see it, under
    [@st.cache_data(ttl=300)].  The decorator memoises the returned value
    under the arguments of the call: a stored value younger than [ttl]
    seconds is returned without running the body, otherwise the body runs
    and its return value is stored.  [now] is the clock at the call. *)
Definition make_api_request (now : Z) (r : Request) (s : State) : Result * State :=
  match cached now r s with
  | Some v => (v, s)
  | None => fetch_and_store now r s
  end.

(** Lines 202 and 987: [st.cache_data.clear()]. *)
Definition cache_clear (s : State) : State := set_cache ∅ s.

(** What the store behind the decorator drops when it writes at [now]: the
    entries, under whatever arguments, that it no longer serves. *)
Definition reap (now : Z) (c : gmap Request (Result * Z)) : gmap Request (Result * Z) :=
  filter (fun entry => now - snd (snd entry) < ttl) c.

(** [fetch_and_store] with the dropping written out. *)
Definition fetch_and_store_reaping (now : Z) (r : Request) (s : State) : Result * State :=
  let '(v, s') := make_api_request_body r s in
  (v, set_cache (<[r := (v, now)]> (reap now (cache s'))) s').

(** [make_api_request] over the store that drops. *)
Definition make_api_request_reaping (now : Z) (r : Request) (s : State) : Result * State :=
  match cached now r s with
  | Some v => (v, s)
  | None => fetch_and_store_reaping now r s
  end.

(** Two states with the same session, log and run count whose stores
    differ only in that the first lacks entries of the second that were
    past their time at [clock]. *)
Definition reaped_view (clock : Z) (dropping keeping : State) : Prop :=
  api_key dropping = api_key keeping /\ profiles dropping = profiles keeping /\
  accounts dropping = accounts keeping /\ last_refresh dropping = last_refresh keeping /\
  http_log dropping = http_log keeping /\ client_runs dropping = client_runs keeping /\
  ui dropping = ui keeping /\
  forall r,
    cache dropping !! r = cache keeping !! r \/
    (cache dropping !! r = None /\
     exists v stamp, cache keeping !! r = Some (v, stamp) /\ ttl <= clock - stamp).

Definition call (now : Z) (r : Request) : M Result :=
  fun s => let '(v, s') := make_api_request now r s in (Ret v, s').

(** *** Loaders *)

(** Lines 133-140. *)
Definition load_profiles (now : Z) : M (bool * option string) :=
  res <- call now (get "/profiles") ;;
  let '(data, error) := res in
  if truthy data then
    listed <- lift (get_method_default data "profiles" (JArr [])) ;;
    modify (set_profiles listed) ;;;
    ret (true, None)
  else ret (false, error).

(** Lines 142-149. *)
Definition load_accounts (now : Z) : M (bool * option string) :=
  res <- call now (get "/accounts") ;;
  let '(data, error) := res in
  if truthy data then
    listed <- lift (get_method_default data "accounts" (JArr [])) ;;
    modify (set_accounts listed) ;;;
    ret (true, None)
  else ret (false, error).

(** [data is not None]. *)
Definition is_not_none (v : json) : bool :=
  match v with JNull => false | _ => true end.

(** Lines 151-160. *)
Definition validate_api_key (now : Z) : M (bool * option string) :=
  key <- gets api_key ;;
  if negb (str_truthy key) then ret (false, Some "No API key provided")
  else
    res <- call now (get "/profiles") ;;
    let '(data, error) := res in
    if is_not_none data then ret (true, Some "API key is valid")
    else ret (false, error).

(** *** The sidebar of [main] *)

(** Lines 192-202: the key field. *)
Definition on_api_key_input (typed : string) : M unit :=
  key <- gets api_key ;;
  if negb (String.eqb typed key) then
    modify (set_api_key typed) ;;;
    modify cache_clear
  else ret tt.

(** Lines 205-211: the validation button. *)
Definition on_validate (now : Z) : M unit :=
  key <- gets api_key ;;
  if str_truthy key then
    res <- validate_api_key now ;;
    let '(is_valid, message) := res in
    if is_valid : bool then modify (show (UiSuccess (fmt_opt message)))
    else modify (show (UiError (fmt_opt message)))
  else ret tt.

(** Lines 214-227: the refresh button.  [t1] and [t2] are the clock at the
    two loads, [t3] at [datetime.now()]. *)
Definition on_refresh (t1 t2 t3 : Z) : M unit :=
  key <- gets api_key ;;
  if str_truthy key then
    p <- load_profiles t1 ;;
    a <- load_accounts t2 ;;
    let '(profiles_success, profiles_error) := p in
    let '(accounts_success, accounts_error) := a in
    if profiles_success && accounts_success then
      modify (show (UiSuccess "Data refreshed successfully!")) ;;;
      modify (set_last_refresh (Some t3))
    else
      let error_msg := py_or profiles_error accounts_error in
      modify (show (UiError ("Refresh failed: " ++ fmt_opt error_msg)))
  else modify (show (UiError "Please enter your API key first")).

(** *** [show_profiles] *)

(** Lines 500-505: the body of the new profile. *)
Definition profile_body (name description color : string) (set_default : bool) : json :=
  JObj [("name", JStr (strip name));
        ("description", JStr (strip description));
        ("color", JStr color);
        ("isDefault", JBool set_default)].

(** Lines 494-515: the profile form submitted. *)
Definition on_create_profile (t1 t2 : Z) (name description color : string) (set_default : bool)
    : M unit :=
  if negb (str_truthy (strip name)) then modify (show (UiError "Profile name is required"))
  else if (py_len (strip name) <? 2)%nat then
    modify (show (UiError "Profile name must be at least 2 characters"))
  else
    res <- call t1 (post "/profiles" (profile_body name description color set_default)) ;;
    let '(result, error) := res in
    if truthy result then
      modify (show (UiSuccess ("✅ Profile '" ++ name ++ "' created successfully!"))) ;;;
      _ <- load_profiles t2 ;;
      ret tt
    else modify (show (UiError ("❌ Failed to create profile: " ++ fmt_opt error))).

(** *** [show_posts] *)

(** Lines 610-619: the upload button; returns [media_url]. *)
Definition on_upload (now : Z) (bytes : string) : M (option json) :=
  res <- call now (post_files "/media" [("files", bytes)]) ;;
  let '(media_response, media_error) := res in
  ok <- (if truthy media_response then
           listed <- lift (get_method media_response "files") ;;
           ret (truthy listed)
         else ret false) ;;
  if ok : bool then
    listed <- lift (subscript_key media_response "files") ;;
    first <- lift (subscript_0 listed) ;;
    url <- lift (subscript_key first "url") ;;
    modify (show (UiSuccess "✅ Image uploaded successfully!")) ;;;
    modify (show (UiMarkdown ("**URL:** " ++ py_str url))) ;;;
    ret (Some url)
  else
    modify (show (UiError ("❌ Failed to upload image: " ++ fmt_opt media_error))) ;;;
    ret None.

(** Lines 710-750: what a ticked account contributes to [selected_accounts],
    from the account's platform and id and the three Reddit widgets. *)
Definition platform_data (account_platform : string) (account_id : json)
    (subreddit post_type url_field : string) : AccData :=
  if String.eqb account_platform "reddit" then
    let url := if String.eqb post_type "link" then Some url_field else None in
    if str_truthy subreddit then
      mkAccData account_platform account_id
        (Some ([("subreddit", JStr subreddit); ("type", JStr post_type)]
               ++ (if opt_truthy url then [("url", JStr url_field)] else []))%list)
    else mkAccData account_platform account_id None
  else mkAccData account_platform account_id None.

(** Lines 770-776: the checks on one selected account. *)
Definition reddit_errors (acc_data : AccData) : list string :=
  if String.eqb (platform acc_data) "reddit" then
    let reddit_data := default [] (platformSpecificData acc_data) in
    let field k := default JNull (dict_get k reddit_data) in
    ((if negb (truthy (field "subreddit")) then ["Subreddit is required for Reddit posts"]
      else [])
     ++ (if bool_decide (field "type" = JStr "link") && negb (truthy (field "url"))
         then ["URL is required for Reddit link posts"] else []))%list
  else [].

(** Lines 772-775: [acc_data.get('platformSpecificData', {}).get(k)]. *)
Definition option_of (a : AccData) (k : string) : json :=
  default JNull (dict_get k (default [] (platformSpecificData a))).

(** Lines 763-776: the list [errors]. *)
Definition validate_post (f : PostForm) : list string :=
  ((if negb (str_truthy (strip (content f))) then ["Post content is required"] else [])
   ++ (match selected_accounts f with
       | [] => ["At least one platform must be selected"]
       | _ :: _ => []
       end)
   ++ flat_map reddit_errors (selected_accounts f))%list.

Definition acc_json (a : AccData) : json :=
  JObj ([("platform", JStr (platform a)); ("accountId", accountId a)]
        ++ match platformSpecificData a with
           | Some fields => [("platformSpecificData", JObj fields)]
           | None => []
           end)%list.

(** Lines 783-797: the body of the post. *)
Definition post_body (f : PostForm) : json :=
  JObj ([("content", JStr (strip (content f)));
         ("platforms", JArr (List.map acc_json (selected_accounts f)))]
        ++ match scheduled_for f with
           | Some iso => [("scheduledFor", JStr iso); ("timezone", JStr (timezone f))]
           | None => []
           end
        ++ (if opt_truthy (media_url f)
            then [("mediaItems",
                   JArr [JObj [("type", JStr "image");
                               ("url", JStr (fmt_opt (media_url f)))]])]
            else []))%list.

(** Lines 761-807: the "Schedule Post" button. *)
Definition on_schedule_post (now : Z) (f : PostForm) : M unit :=
  let errors := validate_post f in
  match errors with
  | _ :: _ => for_each errors (fun error => modify (show (UiError ("❌ " ++ error))))
  | [] =>
      res <- call now (post "/posts" (post_body f)) ;;
      let '(result, error) := res in
      if truthy result then modify (show (UiSuccess "✅ Post scheduled successfully!"))
      else modify (show (UiError ("❌ Failed to schedule post: " ++ fmt_opt error)))
  end.

(** *** Page prologues and the remaining handlers *)

(** Line 986-988: the calendar's refresh button. *)
Definition on_refresh_calendar : M unit := modify cache_clear.

(** Lines 467-471: [show_profiles] loads the profiles when none are held;
    the result says whether the page goes on. *)
Definition profiles_prologue (now : Z) : M bool :=
  held <- gets profiles ;;
  if negb (truthy held) then
    res <- load_profiles now ;;
    let '(success, error) := res in
    if negb success && opt_truthy error then
      modify (show (UiError ("Failed to load profiles: " ++ fmt_opt error))) ;;;
      ret false
    else ret true
  else ret true.

(** Lines 588-592, and again 1174-1178, 1344-1348 and 1844-1848: the pages
    that need the accounts load them when none are held; the result says
    whether the page goes on. *)
Definition accounts_prologue (now : Z) : M bool :=
  held <- gets accounts ;;
  if negb (truthy held) then
    res <- load_accounts now ;;
    let '(success, error) := res in
    if negb success && opt_truthy error then
      modify (show (UiError ("Failed to load accounts: " ++ fmt_opt error))) ;;;
      ret false
    else ret true
  else ret true.

(** Lines 1942-1947. *)
Definition endpoints_to_test : list (string * string) :=
  [("/profiles", "Profiles"); ("/accounts", "Accounts");
   ("/posts", "Posts"); ("/usage-stats", "Usage Stats")].

(** Lines 1949-1955: one request per endpoint; [tick i] is the clock at the
    request numbered [i].  Each result keeps the name, whether data came
    back, and the error. *)
Fixpoint run_tests (tick : nat -> Z) (i : nat) (endpoints : list (string * string))
    : M (list (string * (bool * option string))) :=
  match endpoints with
  | [] => ret []
  | (ep, name) :: rest =>
      res <- call (tick i) (get ep) ;;
      let '(data, error) := res in
      others <- run_tests tick (S i) rest ;;
      ret ((name, (is_not_none data, error)) :: others)
  end.

(** Lines 1958-1962. *)
Definition show_test_result (result : string * (bool * option string)) : M unit :=
  let '(name, (success, error)) := result in
  if success : bool then modify (show (UiSuccess ("✅ " ++ name ++ ": Connected")))
  else modify (show (UiError ("❌ " ++ name ++ ": " ++ fmt_opt error))).

(** Lines 1937-1962: the connection test button. *)
Definition test_api_connection (tick : nat -> Z) : M unit :=
  test_results <- run_tests tick 0 endpoints_to_test ;;
  for_each test_results show_test_result.

(** *** Reddit requests *)

(** The options of the time filter boxes (lines 1214 and 1395). *)
Inductive TimeFilter : Type := Hour | Day | Week | Month | Year | AllTime.

Definition time_filter_name (t : TimeFilter) : string :=
  match t with
  | Hour => "hour" | Day => "day" | Week => "week"
  | Month => "month" | Year => "year" | AllTime => "all"
  end.

(** Lines 1211-1218 and 1394-1397: the box is there only for "top". *)
Definition time_filter_for (sort_option : string) (chosen : TimeFilter) : option string :=
  if String.eqb sort_option "top" then Some (time_filter_name chosen) else None.

(** Lines 1222-1232. *)
Definition feed_params (account_id : json) (subreddit sort_option : string) (limit : Z)
    (time_filter : option string) : json :=
  JObj ([("accountId", account_id); ("sort", JStr sort_option); ("limit", JInt limit)]
        ++ (if str_truthy (strip subreddit) then [("subreddit", JStr (strip subreddit))]
            else [])
        ++ (if opt_truthy time_filter then [("t", JStr (fmt_opt time_filter))] else []))%list.

(** Line 1235: the request of the "Load Feed" button. *)
Definition feed_request (account_id : json) (subreddit sort_option : string) (limit : Z)
    (chosen : TimeFilter) : Request :=
  get_with "/reddit/feed"
    (feed_params account_id subreddit sort_option limit (time_filter_for sort_option chosen)).

(** Lines 1417-1435. *)
Definition search_params (account_id : json) (query subreddit author sort_option : string)
    (limit : Z) (time_filter : option string) (include_nsfw : bool) : json :=
  JObj ([("accountId", account_id); ("q", JStr (strip query));
         ("sort", JStr sort_option); ("limit", JInt limit)]
        ++ (if str_truthy (strip subreddit)
            then [("subreddit", JStr (strip subreddit)); ("restrict_sr", JStr "1")]
            else [])
        ++ (if str_truthy (strip author) then [("author", JStr (strip author))] else [])
        ++ (if opt_truthy time_filter then [("t", JStr (fmt_opt time_filter))] else [])
        ++ (if include_nsfw then [("include_over_18", JStr "1")] else []))%list.

(** Lines 1408-1438: the request of the "Search" button, none when the
    button was not pressed or the query is blank. *)
Definition search_request (search_clicked : bool) (account_id : json)
    (query subreddit author sort_option : string) (limit : Z) (chosen : TimeFilter)
    (include_nsfw : bool) : option Request :=
  if search_clicked && str_truthy (strip query) then
    Some (get_with "/reddit/search"
            (search_params account_id query subreddit author sort_option limit
               (time_filter_for sort_option chosen) include_nsfw))
  else None.

(** *** Pages of the post list *)

(** Line 868. *)
Definition posts_per_page : Z := 10.

(** Line 869: [(len(posts) + posts_per_page - 1) // posts_per_page]. *)
Definition total_pages (count : Z) : Z := (count + posts_per_page - 1) / posts_per_page.

(** [l[start:stop]], with the clamping of a Python slice. *)
Definition py_slice {A} (l : list A) (start stop : Z) : list A :=
  let len := Z.of_nat (length l) in
  let clamp i := if (i <? 0)%Z then Z.max (len + i) 0 else Z.min i len in
  let a := clamp start in
  let b := clamp stop in
  firstn (Z.to_nat (b - a)) (skipn (Z.to_nat a) l).

(** Lines 871-875: the posts shown for the page picked in the box, all of
    them when there is one page at most. *)
Definition page_posts {A} (posts : list A) (page_num : Z) : list A :=
  if (1 <? total_pages (Z.of_nat (length posts)))%Z then
    let start_idx := (page_num - 1) * posts_per_page in
    let end_idx := start_idx + posts_per_page in
    py_slice posts start_idx end_idx
  else posts.

(** Line 872: [range(1, total_pages + 1)], the pages on offer. *)
Definition page_choices (count : Z) : list Z :=
  List.map (fun k => Z.of_nat k + 1) (List.seq 0 (Z.to_nat (total_pages count))).

End Environment.

(** ** Concrete runs *)

Module Scenario.

(** A far end whose answer depends on the call alone. *)
Definition answering (f : HttpCall -> Outcome) : Env :=
  mkEnv (fun _ c => f c) (fun _ => "[...]")
        "local variable 'response' referenced before assignment".

Definition always (o : Outcome) : Env := answering (fun _ => o).

(** A response with a decoded body. *)
Definition status (code : Z) (body : json) : Outcome :=
  Responded (mkResponse code "" (inr body)).

(** A session with a key typed in. *)
Definition signed_in : State := set_api_key "abc123" initial.

(** Profiles answer 500, everything else 401. *)
Definition profiles_down : Env :=
  answering (fun c =>
    if String.eqb (hc_url c) "https://getlate.dev/api/v1/profiles"
    then status 500 JNull else status 401 JNull).

(** A far end that answers an upload with the bytes it was sent as the url. *)
Definition echo_upload : Env :=
  answering (fun c =>
    status 200
      (JObj [("files",
              JArr [JObj [("url",
                           JStr match hc_files c with
                                | Some ((_, bytes) :: _) => bytes
                                | _ => EmptyString
                                end)]])])).

Definition twitter_account : AccData := mkAccData "twitter" (JStr "a1") None.

Definition hello_post : PostForm :=
  mkPostForm "hello" [twitter_account] None "America/New_York" None.

(** Its content is a space, a no-break space and an ideographic space. *)
Definition empty_post : PostForm :=
  mkPostForm "  　" [] None "America/New_York" None.

Definition reddit_link_no_subreddit_post : PostForm :=
  mkPostForm "hello" [platform_data "reddit" (JStr "r1") "" "link" ""]
    None "America/New_York" None.

Definition reddit_link_post : PostForm :=
  mkPostForm "hello" [platform_data "reddit" (JStr "r1") "programming" "link" ""]
    None "America/New_York" None.

End Scenario.

(** ** Properties *)

Section Properties.

Variable env : Env.

(** *** The request function *)

Lemma body_unfold (r : Request) (s : State) :
  make_api_request_body env r s =
  if str_truthy (api_key s) then
    match dispatch (api_key s) r with
    | Some c => (classify env (remote env (http_log s) c), log_call c (count_run s))
    | None => ((JNull, Some ("Request failed: " ++ unbound_local_text env)), count_run s)
    end
  else ((JNull, Some "API key not provided"), count_run s).
Proof.
  unfold make_api_request_body. simpl.
  destruct (str_truthy (api_key s)); simpl; [|reflexivity].
  destruct (dispatch (api_key s) r); reflexivity.
Qed.

(** The body touches nothing of the session and not the store. *)
Lemma body_frame (r : Request) (s : State) :
  let s' := snd (make_api_request_body env r s) in
  api_key s' = api_key s /\ profiles s' = profiles s /\ accounts s' = accounts s /\
  last_refresh s' = last_refresh s /\ cache s' = cache s /\ ui s' = ui s /\
  client_runs s' = S (client_runs s).
Proof.
  rewrite body_unfold.
  destruct (str_truthy (api_key s)); [destruct (dispatch (api_key s) r)|];
    simpl; repeat split; reflexivity.
Qed.

(** The body hands at most one call to [requests]. *)
Lemma body_log (r : Request) (s : State) :
  http_log (snd (make_api_request_body env r s)) =
  (http_log s ++
   (if str_truthy (api_key s)
    then match dispatch (api_key s) r with Some c => [c] | None => [] end
    else []))%list.
Proof.
  rewrite body_unfold.
  destruct (str_truthy (api_key s)); [destruct (dispatch (api_key s) r)|];
    simpl; now rewrite ?app_nil_r.
Qed.

Lemma cached_Some (now : Z) (r : Request) (s : State) (v : Result) :
  cached now r s = Some v <->
  exists stamp, cache s !! r = Some (v, stamp) /\ now - stamp < ttl.
Proof.
  unfold cached, fresh. split.
  - destruct (cache s !! r) as [[v' stamp]|]; [|discriminate].
    case_bool_decide; [|discriminate]. intros [= ->]. now exists stamp.
  - intros (stamp & -> & Hlt). now rewrite bool_decide_eq_true_2.
Qed.

Lemma cached_None (now : Z) (r : Request) (s : State) :
  cached now r s = None <->
  forall v stamp, cache s !! r = Some (v, stamp) -> ttl <= now - stamp.
Proof.
  unfold cached, fresh. split.
  - destruct (cache s !! r) as [[v' stamp']|]; [|discriminate].
    case_bool_decide; [discriminate|]. intros _ v stamp [= <- <-]. lia.
  - intros H. destruct (cache s !! r) as [[v' stamp']|]; [|reflexivity].
    specialize (H v' stamp' eq_refl). case_bool_decide; [lia|reflexivity].
Qed.

Lemma request_hit (now : Z) (r : Request) (s : State) (v : Result) :
  cached now r s = Some v -> make_api_request env now r s = (v, s).
Proof. unfold make_api_request. now intros ->. Qed.

Lemma request_miss (now : Z) (r : Request) (s : State) :
  cached now r s = None ->
  make_api_request env now r s = fetch_and_store env now r s.
Proof. unfold make_api_request. now intros ->. Qed.

Lemma fetch_and_store_unfold (now : Z) (r : Request) (s : State) :
  fetch_and_store env now r s =
  (fst (make_api_request_body env r s),
   set_cache (<[r := (fst (make_api_request_body env r s), now)]>
                (cache (snd (make_api_request_body env r s))))
     (snd (make_api_request_body env r s))).
Proof. unfold fetch_and_store. now destruct (make_api_request_body env r s). Qed.

(** After any call the store holds the returned value under the arguments
    of the call, and still serves it at the time of the call. *)
Lemma request_leaves_entry (now : Z) (r : Request) (s : State) :
  exists stamp,
    cache (snd (make_api_request env now r s)) !! r
      = Some (fst (make_api_request env now r s), stamp)
    /\ now - stamp < ttl
    /\ (cached now r s = None -> stamp = now).
Proof.
  destruct (cached now r s) as [v|] eqn:E.
  - rewrite (request_hit _ _ _ _ E). simpl.
    apply cached_Some in E as (stamp & Hs & Hlt). exists stamp. repeat split; auto.
    discriminate.
  - rewrite (request_miss _ _ _ E), fetch_and_store_unfold. simpl.
    exists now. rewrite lookup_insert_eq. repeat split; auto. unfold ttl. lia.
Qed.

(** A call leaves the session fields as they were. *)
Lemma request_frame (now : Z) (r : Request) (s : State) :
  let s' := snd (make_api_request env now r s) in
  api_key s' = api_key s /\ profiles s' = profiles s /\ accounts s' = accounts s /\
  last_refresh s' = last_refresh s /\ ui s' = ui s.
Proof.
  destruct (cached now r s) as [v|] eqn:E.
  - rewrite (request_hit _ _ _ _ E). simpl. repeat split; reflexivity.
  - rewrite (request_miss _ _ _ E), fetch_and_store_unfold. simpl.
    destruct (body_frame r s) as (? & ? & ? & ? & _ & ? & _). repeat split; assumption.
Qed.

(** A call changes the store at most under its own arguments. *)
Lemma request_other_entries (now : Z) (r r' : Request) (s : State) :
  r' <> r -> cache (snd (make_api_request env now r s)) !! r' = cache s !! r'.
Proof.
  intros Hne. destruct (cached now r s) as [v|] eqn:E.
  - now rewrite (request_hit _ _ _ _ E).
  - rewrite (request_miss _ _ _ E), fetch_and_store_unfold. simpl.
    rewrite lookup_insert_ne by congruence.
    destruct (body_frame r s) as (_ & _ & _ & _ & -> & _). reflexivity.
Qed.

(** A call served from the store runs nothing; any other call runs the body
    once. *)
Lemma request_runs (now : Z) (r : Request) (s : State) :
  client_runs (snd (make_api_request env now r s)) =
  match cached now r s with
  | Some _ => client_runs s
  | None => S (client_runs s)
  end.
Proof.
  destruct (cached now r s) as [v|] eqn:E.
  - now rewrite (request_hit _ _ _ _ E).
  - rewrite (request_miss _ _ _ E), fetch_and_store_unfold. simpl.
    now destruct (body_frame r s) as (_ & _ & _ & _ & _ & _ & ->).
Qed.

Lemma request_log (now : Z) (r : Request) (s : State) :
  http_log (snd (make_api_request env now r s)) =
  match cached now r s with
  | Some _ => http_log s
  | None => http_log (snd (make_api_request_body env r s))
  end.
Proof.
  destruct (cached now r s) as [v|] eqn:E.
  - now rewrite (request_hit _ _ _ _ E).
  - now rewrite (request_miss _ _ _ E), fetch_and_store_unfold.
Qed.

(** *** The store *)

(** C1, as amended.  A call that finds nothing to serve and whose body
    returns a failure pair [(None, msg)] returns that pair to its caller and
    stores it under the arguments of the call, as it would a success; an
    identical call less than [ttl] seconds later is answered with the stored
    failure and leaves the state as it is: the body does not run again. *)
Theorem failed_call_is_stored (now : Z) (r : Request) (s : State) (data : json) (msg : string) :
  cached now r s = None ->
  fst (make_api_request_body env r s) = (data, Some msg) ->
  fst (make_api_request env now r s) = (data, Some msg) /\
  cache (snd (make_api_request env now r s)) !! r = Some ((data, Some msg), now) /\
  forall later, later - now < ttl ->
    make_api_request env later r (snd (make_api_request env now r s))
    = ((data, Some msg), snd (make_api_request env now r s)).
Proof.
  intros Hmiss Hfail.
  rewrite (request_miss _ _ _ Hmiss), fetch_and_store_unfold, Hfail. simpl.
  split; [reflexivity|]. split; [apply lookup_insert_eq|].
  intros later Hlater. apply request_hit, cached_Some.
  exists now. simpl. split; [apply lookup_insert_eq | assumption].
Qed.

(** C3, as amended.  The key of the store is the call as passed: endpoint,
    method, body, query parameters, files, [use_cache] and which of them the
    call writes out.  After a call, the store holds what the call returned,
    under the arguments of the call and with a capture time [stamp] inside
    the window ([stamp] is the time of the call when the call ran the
    body).  The two calls together ran the body at most once when the
    second has the same arguments and falls inside the window of that
    entry: it returns what the first returned, runs nothing and sends
    nothing.  A second call at or past [stamp + ttl] runs the body again
    and, with a key set and a method the body knows, sends the call again.
    What the store serves for any other arguments is what it served before
    the call, so a call that differs in the files or in any other argument
    is never answered from this entry. *)
Theorem identical_calls_within_window (t1 : Z) (r : Request) (s : State) :
  let first := make_api_request env t1 r s in
  exists stamp,
    cache (snd first) !! r = Some (fst first, stamp) /\
    t1 - stamp < ttl /\
    (cached t1 r s = None -> stamp = t1) /\
    (client_runs (snd first) <= S (client_runs s))%nat /\
    (forall t2,
      let second := make_api_request env t2 r (snd first) in
      (t2 - stamp < ttl ->
         fst second = fst first /\ snd second = snd first) /\
      (ttl <= t2 - stamp ->
         client_runs (snd second) = S (client_runs (snd first)) /\
         forall c, str_truthy (api_key s) = true -> dispatch (api_key s) r = Some c ->
                   http_log (snd second) = (http_log (snd first) ++ [c])%list)) /\
    (forall r' t, r' <> r -> cached t r' (snd first) = cached t r' s).
Proof.
  intros first.
  destruct (request_leaves_entry t1 r s) as (stamp & Hentry & Hin & Hat).
  fold first in Hentry. exists stamp.
  split; [assumption|]. split; [assumption|]. split; [assumption|].
  split.
  { subst first. rewrite request_runs. destruct (cached t1 r s); lia. }
  split.
  2: { intros r' t Hne. unfold cached. subst first.
       now rewrite request_other_entries. }
  intros t2 second. split.
  - intros Hlt. subst second.
    rewrite (request_hit t2 r (snd first) (fst first)); [now split|].
    apply cached_Some. now exists stamp.
  - intros Hge.
    assert (Hmiss : cached t2 r (snd first) = None).
    { apply cached_None. intros v st. rewrite Hentry. intros [= <- <-]. assumption. }
    subst second. rewrite request_runs, request_log, Hmiss. split; [reflexivity|].
    intros c Hkey Hc. rewrite body_log.
    destruct (request_frame t1 r s) as (Hk & _). fold first in Hk.
    now rewrite Hk, Hkey, Hc.
Qed.

(** C7.  With no key in the session the body returns the pair
    [(None, "API key not provided")] and hands nothing to [requests]; a call
    through the decorator sends nothing either, and returns that pair
    whenever the store has nothing to serve. *)
Theorem empty_key_fails_fast (now : Z) (r : Request) (s : State) :
  api_key s = "" ->
  make_api_request_body env r s = ((JNull, Some "API key not provided"), count_run s) /\
  http_log (snd (make_api_request_body env r s)) = http_log s /\
  http_log (snd (make_api_request env now r s)) = http_log s /\
  (cached now r s = None ->
   fst (make_api_request env now r s) = (JNull, Some "API key not provided")).
Proof.
  intros Hkey.
  assert (Hbody : make_api_request_body env r s
                  = ((JNull, Some "API key not provided"), count_run s)).
  { rewrite body_unfold, Hkey. reflexivity. }
  split; [assumption|]. split; [now rewrite Hbody|]. split.
  - rewrite request_log. destruct (cached now r s); [reflexivity | now rewrite Hbody].
  - intros Hmiss. now rewrite (request_miss _ _ _ Hmiss), fetch_and_store_unfold, Hbody.
Qed.

(** *** Classification *)

Lemma dispatch_get (key ep : string) : dispatch key (get ep) = Some (get_call key ep).
Proof. reflexivity. Qed.

Lemma body_result (r : Request) (s : State) (c : HttpCall) :
  str_truthy (api_key s) = true ->
  dispatch (api_key s) r = Some c ->
  fst (make_api_request_body env r s) = classify env (remote env (http_log s) c).
Proof. intros Hkey Hc. now rewrite body_unfold, Hkey, Hc. Qed.

Lemma classify_status (resp : Response) (code : Z) (msg : string) :
  status_code resp = code ->
  (code = 401 /\ msg = "Unauthorized: Please check your API key") \/
  (code = 429 /\ msg = "Rate limit exceeded. Please try again later") \/
  (code = 500 /\ msg = "Server error. Please try again later") ->
  classify env (Responded resp) = (JNull, Some msg).
Proof.
  intros Hcode [[-> ->] | [[-> ->] | [-> ->]]]; unfold classify; rewrite Hcode; reflexivity.
Qed.

(** C4, as amended.  With a key set, for every endpoint and every method
    the body knows, a 401 answer, a 429 answer, a 500 answer and a timeout
    each make the body return [None] data with one fixed message; the four
    messages are pairwise different, and the message text is all that tells
    the four apart. *)
Theorem failures_differ_by_message (r : Request) (s : State) (c : HttpCall) :
  str_truthy (api_key s) = true ->
  dispatch (api_key s) r = Some c ->
  (forall resp, remote env (http_log s) c = Responded resp -> status_code resp = 401 ->
     fst (make_api_request_body env r s)
     = (JNull, Some "Unauthorized: Please check your API key")) /\
  (forall resp, remote env (http_log s) c = Responded resp -> status_code resp = 429 ->
     fst (make_api_request_body env r s)
     = (JNull, Some "Rate limit exceeded. Please try again later")) /\
  (forall resp, remote env (http_log s) c = Responded resp -> status_code resp = 500 ->
     fst (make_api_request_body env r s)
     = (JNull, Some "Server error. Please try again later")) /\
  (remote env (http_log s) c = RaisedTimeout ->
     fst (make_api_request_body env r s)
     = (JNull, Some "Request timed out. Please try again")) /\
  NoDup ["Unauthorized: Please check your API key";
         "Rate limit exceeded. Please try again later";
         "Server error. Please try again later";
         "Request timed out. Please try again"].
Proof.
  intros Hkey Hc. rewrite (body_result r s c Hkey Hc).
  repeat split.
  - intros resp -> Hcode. apply (classify_status resp 401); auto.
  - intros resp -> Hcode. apply (classify_status resp 429); auto.
  - intros resp -> Hcode. apply (classify_status resp 500); auto.
  - now intros ->.
  - apply (bool_decide_unpack _). vm_compute. exact I.
Qed.

(** *** Loaders *)

Lemma load_profiles_unfold (now : Z) (s : State) :
  load_profiles env now s =
  let run := make_api_request env now (get "/profiles") s in
  let data := fst (fst run) in
  if truthy data then
    match get_method_default data "profiles" (JArr []) with
    | Ret listed => (Ret (true, None), set_profiles listed (snd run))
    | Raise e => (Raise e, snd run)
    end
  else (Ret (false, snd (fst run)), snd run).
Proof.
  unfold load_profiles, bind, call, lift, modify, ret.
  destruct (make_api_request env now (get "/profiles") s) as [[data error] s1]. simpl.
  destruct (truthy data); [|reflexivity].
  destruct (get_method_default data "profiles" (JArr [])); reflexivity.
Qed.

Lemma load_accounts_unfold (now : Z) (s : State) :
  load_accounts env now s =
  let run := make_api_request env now (get "/accounts") s in
  let data := fst (fst run) in
  if truthy data then
    match get_method_default data "accounts" (JArr []) with
    | Ret listed => (Ret (true, None), set_accounts listed (snd run))
    | Raise e => (Raise e, snd run)
    end
  else (Ret (false, snd (fst run)), snd run).
Proof.
  unfold load_accounts, bind, call, lift, modify, ret.
  destruct (make_api_request env now (get "/accounts") s) as [[data error] s1]. simpl.
  destruct (truthy data); [|reflexivity].
  destruct (get_method_default data "accounts" (JArr [])); reflexivity.
Qed.

Lemma validate_api_key_unfold (now : Z) (s : State) :
  validate_api_key env now s =
  if str_truthy (api_key s) then
    let run := make_api_request env now (get "/profiles") s in
    if is_not_none (fst (fst run)) then (Ret (true, Some "API key is valid"), snd run)
    else (Ret (false, snd (fst run)), snd run)
  else (Ret (false, Some "No API key provided"), s).
Proof.
  unfold validate_api_key, bind, gets, call, ret.
  destruct (str_truthy (api_key s)); simpl; [|reflexivity].
  destruct (make_api_request env now (get "/profiles") s) as [[data error] s1]. simpl.
  destruct (is_not_none data); reflexivity.
Qed.

Lemma truthy_is_not_none (v : json) : truthy v = true -> is_not_none v = true.
Proof. now destruct v. Qed.

(** C8, as amended.  With a key set, [validate_api_key] reports the key
    valid exactly when the profiles call returns data that is not [None];
    when the data is [None] it reports the key invalid with the error of the
    call.  Whenever [load_profiles] reports success on the same state,
    [validate_api_key] reports valid. *)
Theorem key_valid_iff_data_not_none (now : Z) (s : State) :
  str_truthy (api_key s) = true ->
  let res := fst (make_api_request env now (get "/profiles") s) in
  (fst (validate_api_key env now s) = Ret (true, Some "API key is valid")
   <-> is_not_none (fst res) = true) /\
  (is_not_none (fst res) = false ->
   fst (validate_api_key env now s) = Ret (false, snd res)) /\
  (fst (load_profiles env now s) = Ret (true, None) ->
   fst (validate_api_key env now s) = Ret (true, Some "API key is valid")).
Proof.
  intros Hkey res. rewrite validate_api_key_unfold, load_profiles_unfold, Hkey.
  cbv zeta. fold res.
  destruct (is_not_none (fst res)) eqn:Hsome; simpl.
  - repeat split; auto. discriminate.
  - repeat split; try discriminate.
    destruct (truthy (fst res)) eqn:Ht.
    + apply truthy_is_not_none in Ht. congruence.
    + simpl. discriminate.
Qed.

(** C9.  [load_profiles] either reports success, and then the stored list
    is what [data.get('profiles', [])] gives on the dictionary the call
    returned, or it reports failure or raises, and then the stored list is
    the one from before; the accounts are never touched.  [load_accounts]
    does the same with the two lists exchanged. *)
Theorem loaders_replace_or_keep (now : Z) (s : State) :
  (let out := load_profiles env now s in
   let data := fst (fst (make_api_request env now (get "/profiles") s)) in
   match fst out with
   | Ret (true, error) =>
       error = None /\
       exists fields, data = JObj fields /\
                      profiles (snd out) = dict_get_default "profiles" (JArr []) fields
   | _ => profiles (snd out) = profiles s
   end /\ accounts (snd out) = accounts s) /\
  (let out := load_accounts env now s in
   let data := fst (fst (make_api_request env now (get "/accounts") s)) in
   match fst out with
   | Ret (true, error) =>
       error = None /\
       exists fields, data = JObj fields /\
                      accounts (snd out) = dict_get_default "accounts" (JArr []) fields
   | _ => accounts (snd out) = accounts s
   end /\ profiles (snd out) = profiles s).
Proof.
  split.
  - rewrite load_profiles_unfold. cbv zeta.
    destruct (request_frame now (get "/profiles") s) as (_ & Hp & Ha & _).
    destruct (fst (fst (make_api_request env now (get "/profiles") s))) as
      [| [] | n | [] | [] | [] ]; simpl; auto;
      try (destruct (negb (Z.eqb n 0)); simpl; auto).
    split; [|assumption]. split; [reflexivity|]. eexists. split; reflexivity.
  - rewrite load_accounts_unfold. cbv zeta.
    destruct (request_frame now (get "/accounts") s) as (_ & Hp & Ha & _).
    destruct (fst (fst (make_api_request env now (get "/accounts") s))) as
      [| [] | n | [] | [] | [] ]; simpl; auto;
      try (destruct (negb (Z.eqb n 0)); simpl; auto).
    split; [|assumption]. split; [reflexivity|]. eexists. split; reflexivity.
Qed.

(** C10.  With a key set and nothing in the store to serve, a 200 or 201
    answer whose decoded body is falsy is returned by the body as a success
    pair [(body, None)], and the loader then returns [(False, None)] and
    leaves its list as it was; so for [load_profiles] and for
    [load_accounts]. *)
Theorem falsy_body_fails_loader (now : Z) (s : State) (resp : Response) (v : json) :
  str_truthy (api_key s) = true ->
  status_code resp = 200 \/ status_code resp = 201 ->
  decoded resp = inr v ->
  truthy v = false ->
  (cached now (get "/profiles") s = None ->
   remote env (http_log s) (get_call (api_key s) "/profiles") = Responded resp ->
   fst (make_api_request_body env (get "/profiles") s) = (v, None) /\
   fst (load_profiles env now s) = Ret (false, None) /\
   profiles (snd (load_profiles env now s)) = profiles s) /\
  (cached now (get "/accounts") s = None ->
   remote env (http_log s) (get_call (api_key s) "/accounts") = Responded resp ->
   fst (make_api_request_body env (get "/accounts") s) = (v, None) /\
   fst (load_accounts env now s) = Ret (false, None) /\
   accounts (snd (load_accounts env now s)) = accounts s).
Proof.
  intros Hkey Hcode Hdec Hfalsy.
  assert (Hclass : classify env (Responded resp) = (v, None)).
  { unfold classify. rewrite Hdec. destruct Hcode as [-> | ->]; reflexivity. }
  split; intros Hmiss Hremote.
  - assert (Hbody : fst (make_api_request_body env (get "/profiles") s) = (v, None)).
    { rewrite (body_result _ s _ Hkey (dispatch_get _ _)), Hremote. exact Hclass. }
    split; [exact Hbody|].
    destruct (request_frame now (get "/profiles") s) as (_ & Hp & _).
    rewrite load_profiles_unfold. cbv zeta.
    rewrite (request_miss _ _ _ Hmiss) in *. rewrite fetch_and_store_unfold in *.
    simpl in *. rewrite Hbody. simpl. rewrite Hfalsy. simpl. split; [reflexivity | exact Hp].
  - assert (Hbody : fst (make_api_request_body env (get "/accounts") s) = (v, None)).
    { rewrite (body_result _ s _ Hkey (dispatch_get _ _)), Hremote. exact Hclass. }
    split; [exact Hbody|].
    destruct (request_frame now (get "/accounts") s) as (_ & _ & Ha & _).
    rewrite load_accounts_unfold. cbv zeta.
    rewrite (request_miss _ _ _ Hmiss) in *. rewrite fetch_and_store_unfold in *.
    simpl in *. rewrite Hbody. simpl. rewrite Hfalsy. simpl. split; [reflexivity | exact Ha].
Qed.

(** A loader shows nothing, keeps the key and the refresh time, and sends
    what its one call sends. *)
Lemma load_profiles_frame (now : Z) (s : State) :
  let s' := snd (load_profiles env now s) in
  let s1 := snd (make_api_request env now (get "/profiles") s) in
  api_key s' = api_key s /\ last_refresh s' = last_refresh s /\ ui s' = ui s /\
  http_log s' = http_log s1 /\ cache s' = cache s1 /\ client_runs s' = client_runs s1.
Proof.
  rewrite load_profiles_unfold. cbv zeta.
  destruct (request_frame now (get "/profiles") s) as (Hk & _ & _ & Hr & Hu).
  destruct (truthy _); [destruct (get_method_default _ _ _)|]; simpl; auto 10.
Qed.

Lemma load_accounts_frame (now : Z) (s : State) :
  let s' := snd (load_accounts env now s) in
  let s1 := snd (make_api_request env now (get "/accounts") s) in
  api_key s' = api_key s /\ last_refresh s' = last_refresh s /\ ui s' = ui s /\
  http_log s' = http_log s1 /\ cache s' = cache s1 /\ client_runs s' = client_runs s1.
Proof.
  rewrite load_accounts_unfold. cbv zeta.
  destruct (request_frame now (get "/accounts") s) as (Hk & _ & _ & Hr & Hu).
  destruct (truthy _); [destruct (get_method_default _ _ _)|]; simpl; auto 10.
Qed.

(** *** The refresh button *)

(** C5, as amended.  With a key set, whenever [load_profiles] returns, be it
    a success or a failure, [load_accounts] runs after it on the state it
    left, and sends its call when the store has nothing to serve.  The
    refresh then shows one message: the success message when both loads
    succeeded, and otherwise "Refresh failed: " followed by the profiles
    error when that is a non-empty message and by the accounts error when
    it is not. *)
Theorem refresh_shows_first_error (t1 t2 t3 : Z) (s s1 s2 : State)
    (p_ok a_ok : bool) (p_err a_err : option string) :
  str_truthy (api_key s) = true ->
  load_profiles env t1 s = (Ret (p_ok, p_err), s1) ->
  load_accounts env t2 s1 = (Ret (a_ok, a_err), s2) ->
  let out := on_refresh env t1 t2 t3 s in
  fst out = Ret tt /\
  ui (snd out)
  = (ui s ++ [if p_ok && a_ok then UiSuccess "Data refreshed successfully!"
              else UiError ("Refresh failed: " ++ fmt_opt (py_or p_err a_err))])%list /\
  last_refresh (snd out) = (if p_ok && a_ok then Some t3 else last_refresh s) /\
  (cached t2 (get "/accounts") s1 = None ->
   http_log (snd out) = (http_log s1 ++ [get_call (api_key s) "/accounts"])%list).
Proof.
  intros Hkey Hp Ha out.
  pose proof (load_profiles_frame t1 s) as Fp. rewrite Hp in Fp. simpl in Fp.
  destruct Fp as (Hk1 & Hr1 & Hu1 & _).
  pose proof (load_accounts_frame t2 s1) as Fa. rewrite Ha in Fa. simpl in Fa.
  destruct Fa as (_ & Hr2 & Hu2 & Hl2 & _).
  assert (Hlog : cached t2 (get "/accounts") s1 = None ->
                 http_log s2 = (http_log s1 ++ [get_call (api_key s) "/accounts"])%list).
  { intros Hmiss. rewrite Hl2, request_log, Hmiss, body_log, Hk1, Hkey.
    now rewrite dispatch_get. }
  subst out. unfold on_refresh, bind, gets, modify. rewrite Hkey, Hp, Ha.
  destruct (p_ok && a_ok); simpl.
  - repeat split; [now rewrite Hu2, Hu1 | exact Hlog].
  - repeat split; [now rewrite Hu2, Hu1 | now rewrite Hr2, Hr1 | exact Hlog].
Qed.

(** *** The post form *)

Lemma for_each_show (prefix : string) (errors : list string) (s : State) :
  let out := for_each errors (fun error => modify (show (UiError (prefix ++ error)))) s in
  fst out = Ret tt /\
  ui (snd out) = (ui s ++ List.map (fun error => UiError (prefix ++ error)) errors)%list /\
  http_log (snd out) = http_log s /\ client_runs (snd out) = client_runs s /\
  cache (snd out) = cache s.
Proof.
  revert s. induction errors as [|e rest IH]; intros s; simpl.
  - now rewrite app_nil_r.
  - unfold bind, modify in *. simpl.
    destruct (IH (show (UiError (prefix ++ e)) s)) as (H1 & H2 & H3 & H4 & H5).
    simpl in *. repeat split; auto. now rewrite H2, <- app_assoc.
Qed.

Lemma reddit_link_without_url (a : AccData) (fields : list (string * json)) :
  platform a = "reddit" ->
  platformSpecificData a = Some fields ->
  dict_get "type" fields = Some (JStr "link") ->
  truthy (default JNull (dict_get "url" fields)) = false ->
  In "URL is required for Reddit link posts" (reddit_errors a).
Proof.
  intros Hp Hd Ht Hu. unfold reddit_errors. rewrite Hp, Hd. simpl.
  rewrite Ht, Hu. simpl.
  apply in_or_app. right. now left.
Qed.

(** C6, as amended.  A submission whose list of errors is not empty shows
    each error, in order, and nothing else happens: no call is sent, the
    body of [make_api_request] does not run and the store is not touched.
    With blank content and no account ticked the errors are the two
    messages on content and platform.  With a ticked Reddit account whose
    options say type "link" and carry no url (or an empty one), the errors
    include "URL is required for Reddit link posts".  The form attaches
    the options, and the type with them, only when a subreddit was typed:
    a ticked Reddit account of type "link" with no url is reported through
    the url message when its subreddit box is filled, and through the
    subreddit message, without the url message, when it is empty. *)
Theorem post_validation_short_circuits (now : Z) (f : PostForm) (s : State) :
  (validate_post f <> [] ->
   let out := on_schedule_post env now f s in
   fst out = Ret tt /\
   ui (snd out)
   = (ui s ++ List.map (fun error => UiError ("❌ " ++ error)) (validate_post f))%list /\
   http_log (snd out) = http_log s /\ client_runs (snd out) = client_runs s /\
   cache (snd out) = cache s) /\
  (strip (content f) = "" -> selected_accounts f = [] ->
   validate_post f
   = ["Post content is required"; "At least one platform must be selected"] /\
   (2 <= length (validate_post f))%nat) /\
  (forall a fields,
     In a (selected_accounts f) ->
     platform a = "reddit" ->
     platformSpecificData a = Some fields ->
     dict_get "type" fields = Some (JStr "link") ->
     truthy (default JNull (dict_get "url" fields)) = false ->
     In "URL is required for Reddit link posts" (validate_post f) /\ validate_post f <> []) /\
  (forall id subreddit url_field,
     In (platform_data "reddit" id subreddit "link" url_field) (selected_accounts f) ->
     str_truthy url_field = false ->
     validate_post f <> [] /\
     if str_truthy subreddit
     then In "URL is required for Reddit link posts" (validate_post f)
     else In "Subreddit is required for Reddit posts" (validate_post f) /\
          reddit_errors (platform_data "reddit" id subreddit "link" url_field)
          = ["Subreddit is required for Reddit posts"]).
Proof.
  assert (Hreported : forall a message,
            In a (selected_accounts f) -> In message (reddit_errors a) ->
            In message (validate_post f)).
  { intros a message Ha Hm. unfold validate_post.
    apply in_or_app. right. apply in_or_app. right.
    apply in_flat_map. exists a. now split. }
  split; [|split; [|split]].
  - intros Hne out. subst out. unfold on_schedule_post.
    destruct (validate_post f) as [|e rest] eqn:E; [congruence|].
    apply for_each_show.
  - intros Hc Hs. unfold validate_post. rewrite Hc, Hs. simpl. split; [reflexivity | lia].
  - intros a fields Ha Hp Hd Ht Hu.
    assert (Hin : In "URL is required for Reddit link posts" (validate_post f)).
    { apply (Hreported a); [assumption|].
      now apply (reddit_link_without_url a fields). }
    split; [assumption|]. intros Hnil. rewrite Hnil in Hin. destruct Hin.
  - intros id subreddit url_field Ha Hu.
    destruct url_field; [|discriminate].
    destruct subreddit as [|c rest]; simpl.
    + assert (Hin : In "Subreddit is required for Reddit posts" (validate_post f)).
      { apply (Hreported _ _ Ha). left. reflexivity. }
      split; [|split; [assumption | reflexivity]].
      intros Hnil. rewrite Hnil in Hin. destruct Hin.
    + assert (Hin : In "URL is required for Reddit link posts" (validate_post f)).
      { apply (Hreported _ _ Ha). left. reflexivity. }
      split; [|assumption].
      intros Hnil. rewrite Hnil in Hin. destruct Hin.
Qed.

(** What the form builds when "link" is chosen and both the subreddit and
    the url are left empty carries no Reddit options at all, so the only
    error reported for it is the one on the subreddit. *)
Lemma link_without_subreddit (id : json) :
  reddit_errors (platform_data "reddit" id "" "link" "")
  = ["Subreddit is required for Reddit posts"].
Proof. reflexivity. Qed.

(** *** The three writing handlers *)

Lemma on_schedule_post_valid (now : Z) (f : PostForm) (s : State) :
  validate_post f = [] ->
  on_schedule_post env now f s =
  let run := make_api_request env now (post "/posts" (post_body f)) s in
  (Ret tt,
   show (if truthy (fst (fst run)) then UiSuccess "✅ Post scheduled successfully!"
         else UiError ("❌ Failed to schedule post: " ++ fmt_opt (snd (fst run))))
        (snd run)).
Proof.
  intros Hv. unfold on_schedule_post, bind, call, modify. rewrite Hv.
  destruct (make_api_request env now (post "/posts" (post_body f)) s) as [[result error] s1].
  simpl. now destruct (truthy result).
Qed.

(** The upload handler leaves the store, the log and the run count as its
    one call left them. *)
Lemma on_upload_state (now : Z) (bytes : string) (s : State) :
  let out := on_upload env now bytes s in
  let run := make_api_request env now (post_files "/media" [("files", bytes)]) s in
  cache (snd out) = cache (snd run) /\ http_log (snd out) = http_log (snd run) /\
  client_runs (snd out) = client_runs (snd run).
Proof.
  unfold on_upload, bind, call, lift, modify, ret.
  destruct (make_api_request env now (post_files "/media" [("files", bytes)]) s)
    as [[media_response media_error] s1].
  simpl.
  repeat (match goal with
          | |- context [truthy ?v] => destruct (truthy v); simpl
          | |- context [get_method ?v ?k] => destruct (get_method v k); simpl
          | |- context [subscript_key ?v ?k] => destruct (subscript_key v k); simpl
          | |- context [subscript_0 ?v] => destruct (subscript_0 v); simpl
          end); auto.
Qed.

Lemma request_get_posts (now : Z) (ep : string) (s : State) :
  posts_sent (snd (make_api_request env now (get ep) s)) = posts_sent s.
Proof.
  unfold posts_sent. rewrite request_log.
  destruct (cached now (get ep) s); [reflexivity|].
  rewrite body_log, List.filter_app.
  destruct (str_truthy (api_key s)); simpl; now rewrite app_nil_r.
Qed.

(** The profile handler leaves the store entry of its POST and the POST
    calls sent as its first call left them. *)
Lemma on_create_profile_state (t1 t2 : Z) (name description color : string)
    (set_default : bool) (s : State) :
  str_truthy (strip name) = true ->
  (2 <= py_len (strip name))%nat ->
  let req := post "/profiles" (profile_body name description color set_default) in
  let out := on_create_profile env t1 t2 name description color set_default s in
  let run := make_api_request env t1 req s in
  cache (snd out) !! req = cache (snd run) !! req /\
  posts_sent (snd out) = posts_sent (snd run).
Proof.
  intros Hname Hlen req out run. subst out.
  unfold on_create_profile. rewrite Hname. simpl.
  destruct (py_len (strip name) <? 2)%nat eqn:Hlt;
    [apply Nat.ltb_lt in Hlt; lia|].
  unfold bind, call, modify, ret. fold req. fold run.
  destruct run as [[result error] s1] eqn:Hrun. simpl.
  destruct (truthy result); simpl; [|now split].
  set (shown := show _ s1).
  pose proof (load_profiles_frame t2 shown) as (_ & _ & _ & Hl & Hc & _).
  assert (Hc' : cache (snd (load_profiles env t2 shown)) !! req = cache s1 !! req).
  { rewrite Hc. rewrite request_other_entries by (subst req; discriminate). reflexivity. }
  assert (Hl' : posts_sent (snd (load_profiles env t2 shown)) = posts_sent s1).
  { unfold posts_sent at 1. rewrite Hl.
    fold (posts_sent (snd (make_api_request env t2 (get "/profiles") shown))).
    now rewrite request_get_posts. }
  destruct (load_profiles env t2 shown) as [[r|e] s2]; simpl in *; now split.
Qed.

Lemma repeat_is_served (later : Z) (r : Request) (s : State) (v : Result) (stamp : Z) :
  cache s !! r = Some (v, stamp) ->
  later - stamp < ttl ->
  make_api_request env later r s = (v, s).
Proof. intros Hc Hlt. apply request_hit, cached_Some. now exists stamp. Qed.

(** C2, as amended.  The post form, the profile form and the upload button
    issue their POST through [make_api_request] like every other caller, so
    through the store.  After a valid post submission, a valid profile
    submission or an upload, the store holds the returned pair under the
    arguments of that POST, captured at [stamp] inside the window ([stamp]
    is the time of the call, and the body ran once, when the store had
    nothing to serve).  The same submission or upload again, less than [ttl]
    seconds after [stamp], is answered from the store: the post and the
    upload handler send nothing and run nothing, and the profile handler
    sends no further POST. *)
Theorem writes_go_through_store (now : Z) (s : State) :
  (forall f, validate_post f = [] ->
     let req := post "/posts" (post_body f) in
     let s1 := snd (on_schedule_post env now f s) in
     exists v stamp,
       cache s1 !! req = Some (v, stamp) /\ now - stamp < ttl /\
       (cached now req s = None -> stamp = now /\ client_runs s1 = S (client_runs s)) /\
       forall later, later - stamp < ttl ->
         http_log (snd (on_schedule_post env later f s1)) = http_log s1 /\
         client_runs (snd (on_schedule_post env later f s1)) = client_runs s1) /\
  (forall bytes,
     let req := post_files "/media" [("files", bytes)] in
     let s1 := snd (on_upload env now bytes s) in
     exists v stamp,
       cache s1 !! req = Some (v, stamp) /\ now - stamp < ttl /\
       (cached now req s = None -> stamp = now /\ client_runs s1 = S (client_runs s)) /\
       forall later, later - stamp < ttl ->
         http_log (snd (on_upload env later bytes s1)) = http_log s1 /\
         client_runs (snd (on_upload env later bytes s1)) = client_runs s1) /\
  (forall name description color set_default t2,
     str_truthy (strip name) = true ->
     (2 <= py_len (strip name))%nat ->
     let req := post "/profiles" (profile_body name description color set_default) in
     let s1 := snd (on_create_profile env now t2 name description color set_default s) in
     exists v stamp,
       cache s1 !! req = Some (v, stamp) /\ now - stamp < ttl /\
       (cached now req s = None -> stamp = now) /\
       forall later t2', later - stamp < ttl ->
         posts_sent (snd (on_create_profile env later t2' name description color
                            set_default s1))
         = posts_sent s1).
Proof.
  split; [|split].
  - intros f Hv req s1.
    destruct (request_leaves_entry now req s) as (stamp & Hentry & Hin & Hat).
    pose proof (request_runs now req s) as Hruns.
    assert (Hs1 : cache s1 = cache (snd (make_api_request env now req s)) /\
                  client_runs s1 = client_runs (snd (make_api_request env now req s))).
    { subst s1. rewrite (on_schedule_post_valid now f s Hv). now split. }
    destruct Hs1 as (Hc1 & Hr1).
    exists (fst (make_api_request env now req s)), stamp.
    rewrite Hc1. split; [assumption|]. split; [assumption|]. split.
    { intros Hmiss. split; [auto|]. now rewrite Hr1, Hruns, Hmiss. }
    intros later Hlater. rewrite (on_schedule_post_valid later f s1 Hv). cbv zeta.
    fold req.
    rewrite (repeat_is_served later req s1 (fst (make_api_request env now req s)) stamp);
      [now split | now rewrite Hc1 | assumption].
  - intros bytes req s1.
    destruct (request_leaves_entry now req s) as (stamp & Hentry & Hin & Hat).
    pose proof (request_runs now req s) as Hruns.
    destruct (on_upload_state now bytes s) as (Hc1 & _ & Hr1).
    fold req in Hc1, Hr1. fold s1 in Hc1, Hr1.
    exists (fst (make_api_request env now req s)), stamp.
    rewrite Hc1. split; [assumption|]. split; [assumption|]. split.
    { intros Hmiss. split; [auto|]. now rewrite Hr1, Hruns, Hmiss. }
    intros later Hlater.
    destruct (on_upload_state later bytes s1) as (_ & Hl2 & Hr2).
    fold req in Hl2, Hr2.
    rewrite (repeat_is_served later req s1 (fst (make_api_request env now req s)) stamp)
      in Hl2, Hr2;
      [now split | now rewrite Hc1 | assumption | now rewrite Hc1 | assumption].
  - intros name description color set_default t2 Hname Hlen req s1.
    destruct (request_leaves_entry now req s) as (stamp & Hentry & Hin & Hat).
    destruct (on_create_profile_state now t2 name description color set_default s
                Hname Hlen) as (Hc1 & _).
    fold req in Hc1. fold s1 in Hc1.
    exists (fst (make_api_request env now req s)), stamp.
    rewrite Hc1. split; [assumption|]. split; [assumption|]. split; [assumption|].
    intros later t2' Hlater.
    destruct (on_create_profile_state later t2' name description color set_default s1
                Hname Hlen) as (_ & Hp2).
    fold req in Hp2.
    rewrite (repeat_is_served later req s1 (fst (make_api_request env now req s)) stamp)
      in Hp2; [assumption | now rewrite Hc1 | assumption].
Qed.

End Properties.

(** *** Concrete runs of the store *)

(** C1 as stated fails: against a far end that answers 500, the first call
    for the profiles returns the failure pair, the store then holds that
    pair, and the identical call ten seconds later returns it again without
    running the body or sending anything. *)
Lemma failed_call_not_stored_counterexample :
  let env := Scenario.always (Scenario.status 500 JNull) in
  let first := make_api_request env 0 (get "/profiles") Scenario.signed_in in
  let second := make_api_request env 10 (get "/profiles") (snd first) in
  fst first = (JNull, Some "Server error. Please try again later") /\
  cache (snd first) !! get "/profiles" = Some (fst first, 0) /\
  fst second = fst first /\
  client_runs (snd second) = client_runs (snd first) /\
  http_log (snd second) = http_log (snd first).
Proof. vm_compute. repeat split. Qed.

Lemma failed_call_is_stored_witness :
  let env := Scenario.always (Scenario.status 500 JNull) in
  let run := make_api_request env 0 (get "/profiles") Scenario.signed_in in
  fst run = (JNull, Some "Server error. Please try again later") /\
  cache (snd run) !! get "/profiles"
    = Some ((JNull, Some "Server error. Please try again later"), 0) /\
  forall later, later - 0 < ttl ->
    make_api_request env later (get "/profiles") (snd run)
    = ((JNull, Some "Server error. Please try again later"), snd run).
Proof.
  apply (failed_call_is_stored (Scenario.always (Scenario.status 500 JNull)) 0
           (get "/profiles") Scenario.signed_in JNull
           "Server error. Please try again later").
  - vm_compute. reflexivity.
  - vm_compute. reflexivity.
Defined.

(** C3 as stated fails: two uploads of different bytes, ten seconds apart,
    agree on endpoint, method, query parameters and body, yet each is sent
    and each runs the body, and the second returns another pair than the
    first. *)
Lemma same_signature_counterexample :
  let env := Scenario.echo_upload in
  let r1 := post_files "/media" [("files", "AAA")] in
  let r2 := post_files "/media" [("files", "BBB")] in
  let first := make_api_request env 0 r1 Scenario.signed_in in
  let second := make_api_request env 10 r2 (snd first) in
  (endpoint r1, method r1, params r1, data r1)
  = (endpoint r2, method r2, params r2, data r2) /\
  length (http_log (snd second)) = 2%nat /\
  client_runs (snd second) = 2%nat /\
  fst second <> fst first.
Proof. vm_compute. repeat split. discriminate. Qed.

Lemma identical_calls_within_window_witness :
  let env := Scenario.always (Scenario.status 200 (JObj [("profiles", JArr [])])) in
  let first := make_api_request env 0 (get "/profiles") Scenario.signed_in in
  exists stamp,
    cache (snd first) !! get "/profiles" = Some (fst first, stamp) /\
    0 - stamp < ttl /\
    (cached 0 (get "/profiles") Scenario.signed_in = None -> stamp = 0) /\
    (client_runs (snd first) <= S (client_runs Scenario.signed_in))%nat /\
    (forall t2,
      let second := make_api_request env t2 (get "/profiles") (snd first) in
      (t2 - stamp < ttl -> fst second = fst first /\ snd second = snd first) /\
      (ttl <= t2 - stamp ->
         client_runs (snd second) = S (client_runs (snd first)) /\
         forall c, str_truthy (api_key Scenario.signed_in) = true ->
                   dispatch (api_key Scenario.signed_in) (get "/profiles") = Some c ->
                   http_log (snd second) = (http_log (snd first) ++ [c])%list)) /\
    (forall r' t, r' <> get "/profiles" ->
                  cached t r' (snd first) = cached t r' Scenario.signed_in).
Proof.
  exact (identical_calls_within_window
           (Scenario.always (Scenario.status 200 (JObj [("profiles", JArr [])])))
           0 (get "/profiles") Scenario.signed_in).
Defined.

Lemma empty_key_fails_fast_witness :
  let env := Scenario.always (Scenario.status 200 (JObj [])) in
  make_api_request_body env (get "/profiles") initial
    = ((JNull, Some "API key not provided"), count_run initial) /\
  http_log (snd (make_api_request_body env (get "/profiles") initial)) = http_log initial /\
  http_log (snd (make_api_request env 0 (get "/profiles") initial)) = http_log initial /\
  (cached 0 (get "/profiles") initial = None ->
   fst (make_api_request env 0 (get "/profiles") initial)
   = (JNull, Some "API key not provided")).
Proof.
  apply (empty_key_fails_fast (Scenario.always (Scenario.status 200 (JObj []))) 0
           (get "/profiles") initial).
  reflexivity.
Defined.

(** *** Concrete runs of the writing handlers *)

(** C2 as stated fails: against a far end that accepts everything, the same
    post submitted again ten seconds later, the same bytes uploaded again
    and the same profile submitted again are answered from the store; one
    POST was sent for each, not two. *)
Lemma writes_bypass_store_counterexample :
  let env := Scenario.always
               (Scenario.status 200
                  (JObj [("files", JArr [JObj [("url", JStr "https://cdn/x.png")]])])) in
  let posted := on_schedule_post env 0 Scenario.hello_post Scenario.signed_in in
  let posted_again := on_schedule_post env 10 Scenario.hello_post (snd posted) in
  let uploaded := on_upload env 0 "PNG" Scenario.signed_in in
  let uploaded_again := on_upload env 10 "PNG" (snd uploaded) in
  let created := on_create_profile env 0 1 "Brand" "" "#1f77b4" false Scenario.signed_in in
  let created_again := on_create_profile env 10 11 "Brand" "" "#1f77b4" false (snd created) in
  validate_post Scenario.hello_post = [] /\
  length (http_log (snd posted)) = 1%nat /\
  http_log (snd posted_again) = http_log (snd posted) /\
  ui (snd posted_again) = [UiSuccess "✅ Post scheduled successfully!";
                           UiSuccess "✅ Post scheduled successfully!"] /\
  fst uploaded = Ret (Some (JStr "https://cdn/x.png")) /\
  fst uploaded_again = Ret (Some (JStr "https://cdn/x.png")) /\
  length (http_log (snd uploaded)) = 1%nat /\
  http_log (snd uploaded_again) = http_log (snd uploaded) /\
  length (posts_sent (snd created)) = 1%nat /\
  posts_sent (snd created_again) = posts_sent (snd created).
Proof. vm_compute. repeat split. Qed.

Lemma writes_go_through_store_witness :
  let env := Scenario.always (Scenario.status 201 (JObj [("id", JStr "p1")])) in
  validate_post Scenario.hello_post = [] /\
  let req := post "/posts" (post_body Scenario.hello_post) in
  let s1 := snd (on_schedule_post env 0 Scenario.hello_post Scenario.signed_in) in
  exists v stamp,
    cache s1 !! req = Some (v, stamp) /\ 0 - stamp < ttl /\
    (cached 0 req Scenario.signed_in = None ->
     stamp = 0 /\ client_runs s1 = S (client_runs Scenario.signed_in)) /\
    forall later, later - stamp < ttl ->
      http_log (snd (on_schedule_post env later Scenario.hello_post s1)) = http_log s1 /\
      client_runs (snd (on_schedule_post env later Scenario.hello_post s1))
      = client_runs s1.
Proof.
  split; [reflexivity|].
  destruct (writes_go_through_store
              (Scenario.always (Scenario.status 201 (JObj [("id", JStr "p1")])))
              0 Scenario.signed_in) as (Hpost & _).
  apply (Hpost Scenario.hello_post). reflexivity.
Defined.

(** *** Concrete runs of the classification *)

(** C4 as stated fails: what the body returns for a 401, a 429, a 500 and a
    timeout is in each case the pair of [None] and a message; with the
    message text put aside the four pairs are one and the same. *)
Lemma failure_kinds_counterexample :
  let env := Scenario.always RaisedTimeout in
  let unauthorized := classify env (Scenario.status 401 JNull) in
  let rate_limited := classify env (Scenario.status 429 JNull) in
  let server_error := classify env (Scenario.status 500 JNull) in
  let timed_out := classify env RaisedTimeout in
  let beside_text (r : Result) :=
    (fst r, match snd r with Some _ => true | None => false end) in
  beside_text unauthorized = (JNull, true) /\
  beside_text rate_limited = beside_text unauthorized /\
  beside_text server_error = beside_text unauthorized /\
  beside_text timed_out = beside_text unauthorized.
Proof. vm_compute. repeat split. Qed.

Lemma failures_differ_by_message_witness :
  let env := Scenario.always (Scenario.status 401 JNull) in
  str_truthy (api_key Scenario.signed_in) = true /\
  dispatch (api_key Scenario.signed_in) (get "/accounts") = Some (get_call "abc123" "/accounts") /\
  fst (make_api_request_body env (get "/accounts") Scenario.signed_in)
  = (JNull, Some "Unauthorized: Please check your API key").
Proof.
  split; [reflexivity|]. split; [reflexivity|].
  destruct (failures_differ_by_message (Scenario.always (Scenario.status 401 JNull))
              (get "/accounts") Scenario.signed_in (get_call "abc123" "/accounts")
              eq_refl eq_refl) as (H401 & _).
  apply (H401 (mkResponse 401 "" (inr JNull))); reflexivity.
Defined.

(** *** Concrete runs of the loaders *)

(** C8 as stated fails: when the profiles call is answered 200 with the
    empty object, [validate_api_key] reports the key valid while
    [load_profiles], from the same state, reports failure. *)
Lemma key_valid_without_load_counterexample :
  let env := Scenario.always (Scenario.status 200 (JObj [])) in
  fst (validate_api_key env 0 Scenario.signed_in) = Ret (true, Some "API key is valid") /\
  fst (load_profiles env 0 Scenario.signed_in) = Ret (false, None).
Proof. vm_compute. split; reflexivity. Qed.

Lemma key_valid_iff_data_not_none_witness :
  let env := Scenario.always (Scenario.status 401 JNull) in
  str_truthy (api_key Scenario.signed_in) = true /\
  let res := fst (make_api_request env 0 (get "/profiles") Scenario.signed_in) in
  (fst (validate_api_key env 0 Scenario.signed_in) = Ret (true, Some "API key is valid")
   <-> is_not_none (fst res) = true) /\
  (is_not_none (fst res) = false ->
   fst (validate_api_key env 0 Scenario.signed_in) = Ret (false, snd res)) /\
  (fst (load_profiles env 0 Scenario.signed_in) = Ret (true, None) ->
   fst (validate_api_key env 0 Scenario.signed_in) = Ret (true, Some "API key is valid")).
Proof.
  split; [reflexivity|].
  apply (key_valid_iff_data_not_none (Scenario.always (Scenario.status 401 JNull)) 0
           Scenario.signed_in).
  reflexivity.
Defined.

Lemma falsy_body_fails_loader_witness :
  let env := Scenario.always (Scenario.status 200 (JObj [])) in
  (fst (make_api_request_body env (get "/profiles") Scenario.signed_in) = (JObj [], None) /\
   fst (load_profiles env 0 Scenario.signed_in) = Ret (false, None) /\
   profiles (snd (load_profiles env 0 Scenario.signed_in)) = profiles Scenario.signed_in) /\
  (fst (make_api_request_body env (get "/accounts") Scenario.signed_in) = (JObj [], None) /\
   fst (load_accounts env 0 Scenario.signed_in) = Ret (false, None) /\
   accounts (snd (load_accounts env 0 Scenario.signed_in)) = accounts Scenario.signed_in).
Proof.
  destruct (falsy_body_fails_loader (Scenario.always (Scenario.status 200 (JObj []))) 0
              Scenario.signed_in (mkResponse 200 "" (inr (JObj []))) (JObj []))
    as (Hp & Ha); try reflexivity.
  - left. reflexivity.
  - split; [apply Hp | apply Ha]; reflexivity.
Defined.

(** *** Concrete runs of the refresh button *)

(** C5 as stated fails: with the profiles answered 500 and the accounts
    answered 401, both calls are sent and both loads fail, the accounts load
    with the message on the key; the refresh shows the profiles message
    alone, and no shown message carries the accounts message. *)
Lemma refresh_drops_second_error_counterexample :
  let env := Scenario.profiles_down in
  let loaded := load_profiles env 0 Scenario.signed_in in
  let out := on_refresh env 0 1 2 Scenario.signed_in in
  fst loaded = Ret (false, Some "Server error. Please try again later") /\
  fst (load_accounts env 1 (snd loaded))
  = Ret (false, Some "Unauthorized: Please check your API key") /\
  List.map hc_url (http_log (snd out))
  = ["https://getlate.dev/api/v1/profiles"; "https://getlate.dev/api/v1/accounts"] /\
  ui (snd out) = [UiError "Refresh failed: Server error. Please try again later"] /\
  forallb (fun e => negb (contains "Unauthorized: Please check your API key" (shown_text e)))
          (ui (snd out)) = true.
Proof. vm_compute. repeat split. Qed.

Lemma refresh_shows_first_error_witness :
  let env := Scenario.profiles_down in
  let out := on_refresh env 0 1 2 Scenario.signed_in in
  str_truthy (api_key Scenario.signed_in) = true /\
  fst out = Ret tt /\
  ui (snd out)
  = (ui Scenario.signed_in
     ++ [UiError ("Refresh failed: " ++
                  fmt_opt (py_or (Some "Server error. Please try again later")
                                 (Some "Unauthorized: Please check your API key")))])%list /\
  last_refresh (snd out) = last_refresh Scenario.signed_in.
Proof.
  split; [reflexivity|].
  destruct (refresh_shows_first_error Scenario.profiles_down 0 1 2 Scenario.signed_in
              (snd (load_profiles Scenario.profiles_down 0 Scenario.signed_in))
              (snd (load_accounts Scenario.profiles_down 1
                      (snd (load_profiles Scenario.profiles_down 0 Scenario.signed_in))))
              false false
              (Some "Server error. Please try again later")
              (Some "Unauthorized: Please check your API key"))
    as (Hret & Hui & Hlast & _).
  - reflexivity.
  - vm_compute. reflexivity.
  - vm_compute. reflexivity.
  - split; [exact Hret|]. split; [exact Hui | exact Hlast].
Defined.

(** *** Concrete runs of the post form *)

(** C6 as stated fails: a submission with content and one ticked Reddit
    account of type "link", with the subreddit and the url both left empty,
    is refused without a call, but the one message shown is the one on the
    subreddit; nothing shown mentions the url. *)
Lemma link_without_subreddit_counterexample :
  let env := Scenario.always (Scenario.status 201 (JObj [("id", JStr "p1")])) in
  let out := on_schedule_post env 0 Scenario.reddit_link_no_subreddit_post
               Scenario.signed_in in
  validate_post Scenario.reddit_link_no_subreddit_post
  = ["Subreddit is required for Reddit posts"] /\
  ui (snd out) = [UiError "❌ Subreddit is required for Reddit posts"] /\
  http_log (snd out) = [] /\
  forallb (fun e => negb (contains "URL" (shown_text e))) (ui (snd out)) = true.
Proof. vm_compute. repeat split. Qed.

Lemma post_validation_short_circuits_witness :
  let env := Scenario.always (Scenario.status 201 (JObj [("id", JStr "p1")])) in
  let out := on_schedule_post env 0 Scenario.empty_post Scenario.signed_in in
  (fst out = Ret tt /\
   ui (snd out)
   = [UiError "❌ Post content is required";
      UiError "❌ At least one platform must be selected"] /\
   http_log (snd out) = [] /\ client_runs (snd out) = 0%nat) /\
  (2 <= length (validate_post Scenario.empty_post))%nat /\
  In "URL is required for Reddit link posts" (validate_post Scenario.reddit_link_post).
Proof.
  pose proof (post_validation_short_circuits
                (Scenario.always (Scenario.status 201 (JObj [("id", JStr "p1")])))
                0 Scenario.empty_post Scenario.signed_in) as (Hshort & Hempty & _).
  pose proof (post_validation_short_circuits
                (Scenario.always (Scenario.status 201 (JObj [("id", JStr "p1")])))
                0 Scenario.reddit_link_post Scenario.signed_in) as (_ & _ & Hlink & _).
  split; [|split].
  - destruct Hshort as (Hret & Hui & Hlog & Hruns & _); [discriminate|].
    split; [exact Hret|]. split; [exact Hui|]. split; [exact Hlog | exact Hruns].
  - apply Hempty; reflexivity.
  - apply (Hlink (platform_data "reddit" (JStr "r1") "programming" "link" "")
                 [("subreddit", JStr "programming"); ("type", JStr "link")]);
      try reflexivity.
    left. reflexivity.
Defined.

(** ** Further properties of the access layer *)

Section Further.

Variable env : Env.

(** *** What is sent *)

(** X1.  The call made for a request goes to the base URL followed by the
    endpoint, with the verb of the request and the bearer header of the
    key.  A POST with files is sent with a 60 second limit, the files, no
    JSON body and no content type; every other call has a 30 second limit,
    no files and the JSON content type.  Query parameters go out on a GET
    only, and the JSON body on a POST without files or a PUT only. *)
Theorem dispatch_shape (key : string) (r : Request) (c : HttpCall) :
  dispatch key r = Some c ->
  hc_verb c = method r /\
  hc_url c = "https://getlate.dev/api/v1" ++ endpoint r /\
  In ("Authorization", "Bearer " ++ key) (hc_headers c) /\
  (if String.eqb (method r) "POST" && files_truthy (files r)
   then hc_timeout c = 60 /\ hc_files c = files r /\
        hc_headers c = [("Authorization", "Bearer " ++ key)]
   else hc_timeout c = 30 /\ hc_files c = None /\
        hc_headers c = [("Authorization", "Bearer " ++ key);
                        ("Content-Type", "application/json")]) /\
  hc_params c = (if String.eqb (method r) "GET" then params r else JNull) /\
  hc_json c = (if (String.eqb (method r) "POST" && negb (files_truthy (files r)))
                  || String.eqb (method r) "PUT"
               then data r else JNull).
Proof.
  unfold dispatch.
  destruct (String.eqb_spec (method r) "GET") as [Hm | _].
  { intros [= <-]. rewrite Hm. simpl. repeat split; auto. }
  destruct (String.eqb_spec (method r) "POST") as [Hm | _].
  { rewrite Hm. destruct (files_truthy (files r)); intros [= <-]; simpl; repeat split; auto. }
  destruct (String.eqb_spec (method r) "PUT") as [Hm | _].
  { intros [= <-]. rewrite Hm. simpl. repeat split; auto. }
  destruct (String.eqb_spec (method r) "DELETE") as [Hm | _]; [|discriminate].
  intros [= <-]. rewrite Hm. simpl. repeat split; auto.
Qed.

(** X2.  One call of [make_api_request] hands at most one call to
    [requests], whatever comes back.  With a key set and a method other
    than GET, POST, PUT and DELETE the body hands over none and returns the
    failure pair with the text of the unbound [response]. *)
Theorem one_call_per_request (now : Z) (r : Request) (s : State) :
  (exists sent, http_log (snd (make_api_request env now r s)) = (http_log s ++ sent)%list /\
                (length sent <= 1)%nat) /\
  (str_truthy (api_key s) = true ->
   method r <> "GET" -> method r <> "POST" -> method r <> "PUT" -> method r <> "DELETE" ->
   make_api_request_body env r s
   = ((JNull, Some ("Request failed: " ++ unbound_local_text env)), count_run s)).
Proof.
  split.
  - rewrite request_log. destruct (cached now r s).
    + exists []. rewrite app_nil_r. split; [reflexivity | simpl; lia].
    + rewrite body_log. eexists. split; [reflexivity|].
      destruct (str_truthy (api_key s)); [destruct (dispatch (api_key s) r)|]; simpl; lia.
  - intros Hkey Hg Hp Hu Hd. rewrite body_unfold, Hkey. unfold dispatch.
    destruct (String.eqb_spec (method r) "GET"); [contradiction|].
    destruct (String.eqb_spec (method r) "POST"); [contradiction|].
    destruct (String.eqb_spec (method r) "PUT"); [contradiction|].
    destruct (String.eqb_spec (method r) "DELETE"); [contradiction|].
    reflexivity.
Qed.

(** *** What comes back *)

(** X3.  The pair made from the end of a call has no error exactly when the
    answer has status 200 or 201 and a body that decodes, and the data is
    then the decoded body; whenever there is an error the data is [None].
    Any other status, 202 and 204 included, is a failure. *)
Theorem classify_success_iff (o : Outcome) :
  (snd (classify env o) = None <->
   exists resp v, o = Responded resp /\
                  (status_code resp = 200 \/ status_code resp = 201) /\
                  decoded resp = inr v /\ fst (classify env o) = v) /\
  (snd (classify env o) <> None -> fst (classify env o) = JNull).
Proof.
  destruct o as [resp | | | e]; simpl.
  2-4: (split; [split; [discriminate | intros (? & ? & ? & _); discriminate] | reflexivity]).
  destruct (Z.eqb_spec (status_code resp) 200) as [H200 | N200];
    [|destruct (Z.eqb_spec (status_code resp) 201) as [H201 | N201]]; simpl.
  1-2: (destruct (decoded resp) as [e | v] eqn:Hd; simpl;
        [ split; [split; [discriminate | intros (r' & v' & [= <-] & _ & Hd' & _); congruence]
                 | reflexivity]
        | split; [split; [intros _; exists resp, v; auto | reflexivity] | congruence] ]).
  assert (Hnot : ~ exists resp' v, Responded resp = Responded resp' /\
                   (status_code resp' = 200 \/ status_code resp' = 201) /\
                   decoded resp' = inr v /\
                   fst (classify env (Responded resp)) = v).
  { intros (r' & v' & [= <-] & [H | H] & _); congruence. }
  unfold classify in Hnot |- *.
  destruct (Z.eqb_spec (status_code resp) 200); [contradiction|].
  destruct (Z.eqb_spec (status_code resp) 201); [contradiction|]. simpl in *.
  destruct (status_code resp =? 401)%Z; [|destruct (status_code resp =? 429)%Z;
    [|destruct (status_code resp =? 500)%Z]]; simpl;
    (split; [split; [discriminate | intros H; exfalso; exact (Hnot H)] | reflexivity]).
Qed.

(** X4.  An answer whose status is none of 200, 201, 401, 429 and 500 gives
    the message "Error", the status in decimal, a colon and a detail.  The
    detail is the [message] field when the body decodes to a dictionary
    holding a string there, and the raw text of the answer when the body
    does not decode, is no dictionary, or has no such field. *)
Theorem other_status_message (resp : Response) :
  status_code resp <> 200 -> status_code resp <> 201 -> status_code resp <> 401 ->
  status_code resp <> 429 -> status_code resp <> 500 ->
  classify env (Responded resp)
  = (JNull, Some ("Error " ++ pretty (status_code resp) ++ ": " ++ error_detail env resp)) /\
  (forall fields m, decoded resp = inr (JObj fields) ->
                    dict_get "message" fields = Some (JStr m) -> error_detail env resp = m) /\
  (forall fields, decoded resp = inr (JObj fields) ->
                  dict_get "message" fields = None -> error_detail env resp = text resp) /\
  (forall e, decoded resp = inl e -> error_detail env resp = text resp) /\
  (forall v, decoded resp = inr v -> (forall fields, v <> JObj fields) ->
             error_detail env resp = text resp).
Proof.
  intros H200 H201 H401 H429 H500. split.
  - unfold classify.
    destruct (Z.eqb_spec (status_code resp) 200); [contradiction|].
    destruct (Z.eqb_spec (status_code resp) 201); [contradiction|].
    destruct (Z.eqb_spec (status_code resp) 401); [contradiction|].
    destruct (Z.eqb_spec (status_code resp) 429); [contradiction|].
    destruct (Z.eqb_spec (status_code resp) 500); [contradiction|].
    reflexivity.
  - unfold error_detail, dict_get_default. repeat split.
    + intros fields m -> ->. reflexivity.
    + intros fields -> ->. reflexivity.
    + intros e ->. reflexivity.
    + intros v -> Hv. destruct v; try reflexivity. now destruct (Hv fields).
Qed.

(** *** The store, further *)

Lemma cached_same_entry (now : Z) (r : Request) (s s' : State) :
  cache s' !! r = cache s !! r -> cached now r s' = cached now r s.
Proof. unfold cached. now intros ->. Qed.

(** X5.  The body never reads [use_cache]: with the flag off it does what
    it does with the flag on.  The flag is part of the arguments the store
    keys on, and a call with the flag off is stored like any other: the same
    call less than [ttl] seconds later is answered from the store. *)
Theorem use_cache_is_not_read (e m : string) (d p : json)
    (f : option (list (string * string))) (w : list string) (now later : Z) (s : State) :
  let off := mkRequest e m d p f false w in
  let on := mkRequest e m d p f true w in
  make_api_request_body env off s = make_api_request_body env on s /\
  (cached now off s = None -> later - now < ttl ->
   make_api_request env later off (snd (make_api_request env now off s))
   = (fst (make_api_request env now off s), snd (make_api_request env now off s))).
Proof.
  intros off on. split.
  - rewrite !body_unfold. reflexivity.
  - intros Hmiss Hlater.
    destruct (request_leaves_entry env now off s) as (stamp & Hentry & _ & Hat).
    rewrite (Hat Hmiss) in Hentry.
    now apply (repeat_is_served env later off _ _ now).
Qed.

(** X6.  Typing the key that is already held changes nothing.  Typing
    another key replaces the key and empties the store, so that every call
    after it runs the body; the profiles, the accounts and the refresh time
    loaded under the old key stay as they are. *)
Theorem key_change_clears_store (typed : string) (s : State) :
  let out := on_api_key_input typed s in
  fst out = Ret tt /\
  (typed = api_key s -> snd out = s) /\
  (typed <> api_key s ->
   api_key (snd out) = typed /\ cache (snd out) = ∅ /\
   profiles (snd out) = profiles s /\ accounts (snd out) = accounts s /\
   last_refresh (snd out) = last_refresh s /\
   forall now r,
     client_runs (snd (make_api_request env now r (snd out))) = S (client_runs s)).
Proof.
  unfold on_api_key_input, bind, gets, modify, ret. simpl.
  destruct (String.eqb_spec typed (api_key s)) as [Heq | Hne]; simpl.
  - split; [reflexivity|]. split; [reflexivity | contradiction].
  - split; [reflexivity|]. split; [contradiction|]. intros _.
    repeat split. intros now r. rewrite request_runs. unfold cached. simpl.
    now rewrite lookup_empty.
Qed.

Lemma body_same_session (r : Request) (a b : State) :
  api_key a = api_key b -> http_log a = http_log b ->
  fst (make_api_request_body env r a) = fst (make_api_request_body env r b).
Proof.
  intros Hk Hl. rewrite !body_unfold, Hk, Hl.
  destruct (str_truthy (api_key b)); [destruct (dispatch (api_key b) r)|]; reflexivity.
Qed.

(** X7.  The store behind the decorator drops, at every write, the entries
    that are past their time, whatever their arguments.  Callers cannot
    tell: under a clock that does not go back, the decorated function over
    the store that drops and the one over the store that keeps return the
    same pair, and leave the same session, the same log and the same run
    count, with stores that again differ only in entries past their time. *)
Theorem dropping_is_invisible (clock now : Z) (r : Request) (dropping keeping : State) :
  reaped_view clock dropping keeping ->
  clock <= now ->
  fst (make_api_request_reaping env now r dropping)
  = fst (make_api_request env now r keeping) /\
  reaped_view now (snd (make_api_request_reaping env now r dropping))
                  (snd (make_api_request env now r keeping)).
Proof.
  intros (Hk & Hp & Ha & Hr & Hl & Hc & Hu & Hstore) Hclock.
  assert (Hcached : cached now r dropping = cached now r keeping).
  { unfold cached.
    destruct (Hstore r) as [-> | (-> & v & stamp & -> & Hexp)]; [reflexivity|].
    unfold fresh. now rewrite bool_decide_eq_false_2 by lia. }
  unfold make_api_request_reaping, make_api_request. rewrite Hcached.
  destruct (cached now r keeping) as [v|]; simpl.
  - split; [reflexivity|]. repeat split; try assumption.
    intros r'. destruct (Hstore r') as [H | (H & v' & st & H' & Hexp)]; [now left|].
    right. split; [assumption|]. exists v', st. split; [assumption | lia].
  - pose proof (body_same_session r dropping keeping Hk Hl) as Hres.
    pose proof (body_frame env r dropping) as (Fk & Fp & Fa & Fr & Fc & Fu & Fn).
    pose proof (body_frame env r keeping) as (Gk & Gp & Ga & Gr & Gc & Gu & Gn).
    pose proof (body_log env r dropping) as Flog.
    pose proof (body_log env r keeping) as Glog.
    unfold fetch_and_store_reaping. rewrite fetch_and_store_unfold.
    destruct (make_api_request_body env r dropping) as [vd sd].
    destruct (make_api_request_body env r keeping) as [vk sk].
    simpl in *. subst vd.
    split; [reflexivity|]. unfold reaped_view. simpl.
    split; [congruence|]. split; [congruence|]. split; [congruence|].
    split; [congruence|]. split; [now rewrite Flog, Glog, Hk, Hl|].
    split; [congruence|]. split; [congruence|].
    intros r'. destruct (decide (r' = r)) as [-> | Hne].
    { left. now rewrite !lookup_insert_eq. }
    rewrite !lookup_insert_ne by congruence. rewrite Fc, Gc.
    destruct (cache dropping !! r') as [[v' st]|] eqn:Hd.
    + assert (Hkeep : cache keeping !! r' = Some (v', st)).
      { destruct (Hstore r') as [H | (H & _)]; congruence. }
      destruct (decide (now - st < ttl)) as [Hfresh | Hold].
      * left. rewrite Hkeep. apply map_lookup_filter_Some. split; assumption.
      * right. split.
        -- apply map_lookup_filter_None. right. intros x Hx.
           rewrite Hd in Hx. injection Hx as <-. exact Hold.
        -- exists v', st. split; [assumption | lia].
    + assert (Hnone : reap now (cache dropping) !! r' = None).
      { apply map_lookup_filter_None. now left. }
      rewrite Hnone.
      destruct (Hstore r') as [H | (_ & v' & st & H' & Hexp)]; [left; congruence|].
      right. split; [reflexivity|]. exists v', st. split; [assumption | lia].
Qed.

(** X8.  When the store still serves a non-empty dictionary for the
    profiles and one for the accounts, the refresh button contacts nobody:
    nothing is sent and the body does not run, yet the success message is
    shown, the refresh time is set, and the two lists are taken from the
    stored answers. *)
Theorem refresh_served_from_store (t1 t2 t3 : Z) (s : State)
    (fp fa : list (string * json)) (ep ea : option string) :
  str_truthy (api_key s) = true ->
  cached t1 (get "/profiles") s = Some (JObj fp, ep) -> fp <> [] ->
  cached t2 (get "/accounts") s = Some (JObj fa, ea) -> fa <> [] ->
  let out := on_refresh env t1 t2 t3 s in
  fst out = Ret tt /\
  http_log (snd out) = http_log s /\ client_runs (snd out) = client_runs s /\
  ui (snd out) = (ui s ++ [UiSuccess "Data refreshed successfully!"])%list /\
  last_refresh (snd out) = Some t3 /\
  profiles (snd out) = dict_get_default "profiles" (JArr []) fp /\
  accounts (snd out) = dict_get_default "accounts" (JArr []) fa.
Proof.
  intros Hkey Hp Hfp Ha Hfa out. subst out.
  assert (Hlp : load_profiles env t1 s
                = (Ret (true, None),
                   set_profiles (dict_get_default "profiles" (JArr []) fp) s)).
  { rewrite load_profiles_unfold, (request_hit env _ _ _ _ Hp). simpl.
    destruct fp; [contradiction | reflexivity]. }
  assert (Hla : load_accounts env t2
                  (set_profiles (dict_get_default "profiles" (JArr []) fp) s)
                = (Ret (true, None),
                   set_accounts (dict_get_default "accounts" (JArr []) fa)
                     (set_profiles (dict_get_default "profiles" (JArr []) fp) s))).
  { rewrite load_accounts_unfold.
    rewrite (request_hit env t2 (get "/accounts") _ (JObj fa, ea)) by exact Ha.
    simpl. destruct fa; [contradiction | reflexivity]. }
  unfold on_refresh, bind, gets, modify. rewrite Hkey, Hlp, Hla. simpl.
  repeat split.
Qed.

(** X9.  A profile created while the store still serves a non-empty
    dictionary for the profiles is followed by a reload that sends nothing:
    the only call sent is the POST, and the list held afterwards is the one
    from the stored answer, captured before the profile was created. *)
Theorem reload_after_create_is_served (t1 t2 : Z) (name description color : string)
    (set_default : bool) (s : State) (fields : list (string * json)) (e : option string) :
  str_truthy (strip name) = true ->
  (2 <= py_len (strip name))%nat ->
  cached t2 (get "/profiles") s = Some (JObj fields, e) -> fields <> [] ->
  let req := post "/profiles" (profile_body name description color set_default) in
  truthy (fst (fst (make_api_request env t1 req s))) = true ->
  let out := on_create_profile env t1 t2 name description color set_default s in
  fst out = Ret tt /\
  http_log (snd out) = http_log (snd (make_api_request env t1 req s)) /\
  profiles (snd out) = dict_get_default "profiles" (JArr []) fields.
Proof.
  intros Hname Hlen Hc Hf req Hok out. subst out.
  unfold on_create_profile. rewrite Hname. simpl.
  destruct (py_len (strip name) <? 2)%nat eqn:Hlt;
    [apply Nat.ltb_lt in Hlt; lia|].
  unfold bind, call, modify, ret. fold req.
  destruct (make_api_request env t1 req s) as [[result error] s1] eqn:Hrun.
  simpl in Hok. simpl. rewrite Hok. simpl.
  set (shown := show _ s1).
  assert (Hs1 : cache shown !! get "/profiles" = cache s !! get "/profiles").
  { pose proof (request_other_entries env t1 req (get "/profiles") s) as Hother.
    rewrite Hrun in Hother. apply Hother. subst req. discriminate. }
  assert (Hhit : cached t2 (get "/profiles") shown = Some (JObj fields, e)).
  { now rewrite (cached_same_entry t2 _ s shown Hs1). }
  rewrite load_profiles_unfold, (request_hit env _ _ _ _ Hhit). simpl.
  destruct fields; [contradiction|]. simpl. repeat split.
Qed.

(** *** Loaders and the key check, further *)

(** X10.  [validate_api_key] with no key held returns
    [(False, "No API key provided")] and leaves the whole state as it is.
    With any key it leaves the key, the two lists, the refresh time and the
    page untouched: only the store, the log and the run count can change. *)
Theorem validate_keeps_session (now : Z) (s : State) :
  (api_key s = "" ->
   validate_api_key env now s = (Ret (false, Some "No API key provided"), s)) /\
  let s' := snd (validate_api_key env now s) in
  api_key s' = api_key s /\ profiles s' = profiles s /\ accounts s' = accounts s /\
  last_refresh s' = last_refresh s /\ ui s' = ui s.
Proof.
  rewrite validate_api_key_unfold. split.
  - now intros ->.
  - destruct (str_truthy (api_key s)); [|simpl; auto 10].
    cbv zeta. destruct (is_not_none _); simpl; apply request_frame.
Qed.

(** X11.  Two edges of [load_profiles] on a truthy 2xx body.  A dictionary
    without the key "profiles" counts as a success and empties the held
    list.  A body that is no dictionary makes the loader raise
    [AttributeError] with the held list untouched; the body is in the store
    by then, so the loader raises again, without sending anything, for as
    long as the store serves it. *)
Theorem loader_edge_bodies (now : Z) (s : State) (data : json) (err : option string) :
  fst (make_api_request env now (get "/profiles") s) = (data, err) ->
  truthy data = true ->
  (forall fields, data = JObj fields -> dict_get "profiles" fields = None ->
     fst (load_profiles env now s) = Ret (true, None) /\
     profiles (snd (load_profiles env now s)) = JArr []) /\
  ((forall fields, data <> JObj fields) ->
     fst (load_profiles env now s) = Raise AttributeError /\
     profiles (snd (load_profiles env now s)) = profiles s /\
     exists stamp, now - stamp < ttl /\
       forall later, later - stamp < ttl ->
         load_profiles env later (snd (load_profiles env now s))
         = (Raise AttributeError, snd (load_profiles env now s))).
Proof.
  intros Hrun Htruthy.
  destruct (request_frame env now (get "/profiles") s) as (_ & Hp & _).
  destruct (request_leaves_entry env now (get "/profiles") s) as (stamp & Hentry & Hin & _).
  rewrite Hrun in Hentry.
  split.
  - intros fields -> Hnone. rewrite load_profiles_unfold. cbv zeta.
    rewrite Hrun. simpl. simpl in Htruthy. rewrite Htruthy.
    unfold dict_get_default. rewrite Hnone. now split.
  - intros Hnodict.
    assert (Hraise : get_method_default data "profiles" (JArr []) = Raise AttributeError).
    { destruct data; try reflexivity. now destruct (Hnodict fields). }
    assert (Hload : load_profiles env now s
                    = (Raise AttributeError, snd (make_api_request env now (get "/profiles") s))).
    { rewrite load_profiles_unfold. cbv zeta. rewrite Hrun. simpl.
      now rewrite Htruthy, Hraise. }
    rewrite Hload. simpl. split; [reflexivity|]. split; [exact Hp|].
    exists stamp. split; [exact Hin|]. intros later Hlater.
    rewrite load_profiles_unfold.
    rewrite (repeat_is_served env later _ _ (data, err) stamp Hentry Hlater). simpl.
    now rewrite Htruthy, Hraise.
Qed.

(** *** The forms, further *)

(** X12.  The profile form sends nothing for a name of fewer than two
    characters once stripped: it shows one error and leaves everything else
    as it is.  For any longer name its POST goes through
    [make_api_request], so the store holds an entry for it afterwards. *)
Theorem profile_name_is_checked (t1 t2 : Z) (name description color : string)
    (set_default : bool) (s : State) :
  let out := on_create_profile env t1 t2 name description color set_default s in
  ((py_len (strip name) < 2)%nat ->
   out = (Ret tt,
          show (UiError (if str_truthy (strip name)
                         then "Profile name must be at least 2 characters"
                         else "Profile name is required")) s)) /\
  ((2 <= py_len (strip name))%nat ->
   is_Some (cache (snd out)
              !! post "/profiles" (profile_body name description color set_default))).
Proof.
  intros out. split.
  - intros Hlen. subst out. unfold on_create_profile.
    destruct (str_truthy (strip name)); simpl; [|reflexivity].
    destruct (Nat.ltb_spec (py_len (strip name)) 2); [reflexivity | lia].
  - intros Hlen.
    assert (Hname : str_truthy (strip name) = true).
    { destruct (strip name); [cbv in Hlen; lia | reflexivity]. }
    destruct (on_create_profile_state env t1 t2 name description color set_default s
                Hname Hlen) as (Hc & _).
    subst out. rewrite Hc.
    destruct (request_leaves_entry env t1
                (post "/profiles" (profile_body name description color set_default)) s)
      as (stamp & -> & _).
    eauto.
Qed.

Lemma reddit_errors_nil (a : AccData) :
  reddit_errors a = [] <->
  (platform a = "reddit" ->
   truthy (option_of a "subreddit") = true /\
   (option_of a "type" = JStr "link" -> truthy (option_of a "url") = true)).
Proof.
  unfold reddit_errors, option_of.
  destruct (String.eqb_spec (platform a) "reddit") as [Hp | Hp].
  2: { split; [intros _ H; contradiction | reflexivity]. }
  set (fields := default [] (platformSpecificData a)).
  destruct (truthy (default JNull (dict_get "subreddit" fields))) eqn:Hs;
    cbn [negb app].
  - destruct (bool_decide (default JNull (dict_get "type" fields) = JStr "link")) eqn:Hty;
      cbn [andb].
    + apply bool_decide_eq_true in Hty.
      destruct (truthy (default JNull (dict_get "url" fields))) eqn:Hu; cbn [negb].
      * split; [intros _ _; split; [reflexivity | intros _; reflexivity] | reflexivity].
      * split; [discriminate|]. intros H. destruct (H Hp) as (_ & Hu').
        specialize (Hu' Hty). discriminate.
    + apply bool_decide_eq_false in Hty.
      split; [intros _ _; split; [reflexivity | intros; contradiction] | reflexivity].
  - split; [discriminate|]. intros H. destruct (H Hp) as (Hs' & _). discriminate.
Qed.

(** X13.  A post form passes validation exactly when its content is not
    blank, at least one account is ticked, and every ticked Reddit account
    carries a non-empty subreddit and, when its type is "link", a non-empty
    url. *)
Theorem post_is_valid_iff (f : PostForm) :
  validate_post f = [] <->
  str_truthy (strip (content f)) = true /\
  selected_accounts f <> [] /\
  Forall (fun a =>
            platform a = "reddit" ->
            truthy (option_of a "subreddit") = true /\
            (option_of a "type" = JStr "link" -> truthy (option_of a "url") = true))
         (selected_accounts f).
Proof.
  unfold validate_post.
  assert (Hflat : forall l, flat_map reddit_errors l = [] <->
                            Forall (fun a => reddit_errors a = []) l).
  { induction l as [|a l IH]; simpl.
    - split; auto.
    - rewrite Forall_cons. rewrite <- IH. split.
      + intros H. now apply app_eq_nil in H.
      + intros [-> ->]. reflexivity. }
  split.
  - intros H. apply app_eq_nil in H as (Hc & H). apply app_eq_nil in H as (Hs & Hr).
    split; [now destruct (str_truthy (strip (content f)))|].
    split; [now destruct (selected_accounts f)|].
    apply Hflat in Hr. eapply Forall_impl; [exact Hr|].
    intros a Ha. now apply reddit_errors_nil.
  - intros (Hc & Hs & Hr). rewrite Hc. cbn [negb app].
    assert (Hm : match selected_accounts f with
                 | [] => ["At least one platform must be selected"]
                 | _ :: _ => []
                 end = @nil string).
    { destruct (selected_accounts f); [contradiction | reflexivity]. }
    rewrite Hm. cbn [app]. apply Hflat. eapply Forall_impl; [exact Hr|].
    intros a' Ha'. now apply reddit_errors_nil.
Qed.

(** X14.  For an account as the form builds it, the errors are read off the
    widgets: nothing for a platform other than Reddit; the subreddit
    message alone when the subreddit box is empty, whatever the type and
    url; the url message alone when the type is "link" and the url box is
    empty; nothing otherwise.  The subreddit is taken as typed, so one made
    of spaces passes. *)
Theorem built_account_errors (account_platform : string) (account_id : json)
    (subreddit post_type url_field : string) :
  reddit_errors (platform_data account_platform account_id subreddit post_type url_field)
  = if String.eqb account_platform "reddit" then
      if str_truthy subreddit then
        if String.eqb post_type "link" && negb (str_truthy url_field)
        then ["URL is required for Reddit link posts"] else []
      else ["Subreddit is required for Reddit posts"]
    else [].
Proof.
  unfold platform_data, reddit_errors.
  destruct (String.eqb_spec account_platform "reddit") as [-> | Hp]; simpl.
  - destruct subreddit as [|a rest]; simpl; [reflexivity|].
    destruct (String.eqb_spec post_type "link") as [-> | Hl]; simpl.
    + destruct url_field; reflexivity.
    + case_bool_decide as Hty; [congruence | reflexivity].
  - destruct (String.eqb_spec account_platform "reddit"); [contradiction | reflexivity].
Qed.

(** X15.  The upload button.  When the answer is a dictionary whose
    "files" is a list starting with a dictionary that has a "url", that url
    is returned and shown after the success message.  When no data came
    back, the error of the call is shown and nothing is returned.  When data
    came back without a non-empty "files", the failure message is shown as
    well, with whatever error the call returned, [None] on a 2xx answer. *)
Theorem upload_outcomes (now : Z) (bytes : string) (s : State) :
  let run := make_api_request env now (post_files "/media" [("files", bytes)]) s in
  let data := fst (fst run) in
  let err := snd (fst run) in
  let failed :=
    (Ret None, show (UiError ("❌ Failed to upload image: " ++ fmt_opt err)) (snd run)) in
  (forall fields first rest url,
     data = JObj fields ->
     dict_get "files" fields = Some (JArr (JObj first :: rest)) ->
     dict_get "url" first = Some url ->
     on_upload env now bytes s
     = (Ret (Some url),
        show (UiMarkdown ("**URL:** " ++ py_str env url))
          (show (UiSuccess "✅ Image uploaded successfully!") (snd run)))) /\
  (truthy data = false -> on_upload env now bytes s = failed) /\
  (forall fields,
     data = JObj fields ->
     truthy (default JNull (dict_get "files" fields)) = false ->
     on_upload env now bytes s = failed).
Proof.
  unfold on_upload, bind, call, lift, modify, ret.
  destruct (make_api_request env now (post_files "/media" [("files", bytes)]) s)
    as [[data err] s1].
  simpl. split; [|split].
  - intros fields first rest url -> Hfiles Hurl.
    assert (Hne : truthy (JObj fields) = true).
    { destruct fields; [discriminate | reflexivity]. }
    rewrite Hne. unfold get_method, subscript_key. rewrite Hfiles. simpl.
    now rewrite Hurl.
  - now intros ->.
  - intros fields -> Hfalsy. destruct (truthy (JObj fields)); [|reflexivity].
    unfold get_method. simpl.
    assert (H : truthy (match dict_get "files" fields with
                        | Some x => x
                        | None => JNull
                        end) = false).
    { destruct (dict_get "files" fields); exact Hfalsy. }
    now rewrite H.
Qed.

(** *** Reddit requests *)

Lemma time_filter_name_truthy (t : TimeFilter) : str_truthy (time_filter_name t) = true.
Proof. now destruct t. Qed.

(** X16.  The feed request is a GET to "/reddit/feed" whose parameters
    carry the account, the sort and the limit; a time filter "t" exactly
    when the sort is "top", and then the option picked; and a "subreddit"
    exactly when the box is not blank, and then its stripped text. *)
Theorem feed_request_parameters (account_id : json) (subreddit sort_option : string)
    (limit : Z) (chosen : TimeFilter) :
  let r := feed_request account_id subreddit sort_option limit chosen in
  method r = "GET" /\ endpoint r = "/reddit/feed" /\ data r = JNull /\ files r = None /\
  exists fields,
    params r = JObj fields /\
    dict_get "accountId" fields = Some account_id /\
    dict_get "sort" fields = Some (JStr sort_option) /\
    dict_get "limit" fields = Some (JInt limit) /\
    dict_get "t" fields
    = (if String.eqb sort_option "top" then Some (JStr (time_filter_name chosen)) else None) /\
    dict_get "subreddit" fields
    = (if str_truthy (strip subreddit) then Some (JStr (strip subreddit)) else None).
Proof.
  intros r. subst r. unfold feed_request, get_with, feed_params, time_filter_for. simpl.
  repeat split. eexists. split; [reflexivity|].
  destruct (String.eqb sort_option "top"); simpl;
    rewrite ?time_filter_name_truthy;
    destruct (str_truthy (strip subreddit)); simpl; repeat split.
Qed.

(** X17.  The search button sends nothing when it was not pressed or the
    query is blank.  Otherwise its request is a GET to "/reddit/search"
    whose parameters carry the stripped query; "t" exactly when the sort is
    "top"; "subreddit" together with "restrict_sr" set to "1" exactly when
    the subreddit box is not blank; "author" exactly when that box is not
    blank; and "include_over_18" set to "1" exactly when the box is
    ticked. *)
Theorem search_request_parameters (search_clicked : bool) (account_id : json)
    (query subreddit author sort_option : string) (limit : Z) (chosen : TimeFilter)
    (include_nsfw : bool) :
  let sent := search_request search_clicked account_id query subreddit author
                sort_option limit chosen include_nsfw in
  (sent = None <-> search_clicked = false \/ strip query = "") /\
  forall r, sent = Some r ->
    method r = "GET" /\ endpoint r = "/reddit/search" /\
    exists fields,
      params r = JObj fields /\
      dict_get "q" fields = Some (JStr (strip query)) /\
      dict_get "t" fields
      = (if String.eqb sort_option "top" then Some (JStr (time_filter_name chosen))
         else None) /\
      dict_get "subreddit" fields
      = (if str_truthy (strip subreddit) then Some (JStr (strip subreddit)) else None) /\
      dict_get "restrict_sr" fields
      = (if str_truthy (strip subreddit) then Some (JStr "1") else None) /\
      dict_get "author" fields
      = (if str_truthy (strip author) then Some (JStr (strip author)) else None) /\
      dict_get "include_over_18" fields
      = (if include_nsfw then Some (JStr "1") else None).
Proof.
  intros sent. subst sent. unfold search_request. split.
  - destruct search_clicked; simpl.
    + destruct (strip query) eqn:Hq; simpl.
      * split; auto.
      * split; [discriminate | intros [H | H]; discriminate].
    + split; auto.
  - intros r. destruct (search_clicked && str_truthy (strip query)); [|discriminate].
    intros [= <-]. unfold get_with, search_params, time_filter_for. simpl.
    repeat split. eexists. split; [reflexivity|].
    destruct (String.eqb sort_option "top"); simpl;
      rewrite ?time_filter_name_truthy;
      destruct (str_truthy (strip subreddit)); simpl;
      destruct (str_truthy (strip author)); simpl;
      destruct include_nsfw; simpl; repeat split.
Qed.

(** *** Pages of the post list *)

Lemma firstn_skipn_chunks {A} (m : nat) :
  forall l : list A,
    (length l <= 10 * m)%nat ->
    concat (List.map (fun k => firstn 10 (skipn (10 * k) l)) (List.seq 0 m)) = l.
Proof.
  induction m as [|m IH]; intros l Hlen.
  - destruct l; [reflexivity | simpl in Hlen; lia].
  - change (List.seq 0 (S m)) with (0%nat :: List.seq 1 m).
    rewrite <- List.seq_shift, List.map_cons, List.map_map, concat_cons.
    rewrite (List.map_ext (fun k => firstn 10 (skipn (10 * S k) l))
               (fun k => firstn 10 (skipn (10 * k) (skipn 10 l)))).
    + rewrite IH by (rewrite List.length_skipn; lia).
      change (10 * 0)%nat with 0%nat. simpl skipn at 1. apply List.firstn_skipn.
    + intros k. rewrite List.skipn_skipn. f_equal. f_equal. lia.
Qed.

Lemma total_pages_bounds (count : Z) :
  0 <= count ->
  posts_per_page * total_pages count - posts_per_page < count
  <= posts_per_page * total_pages count.
Proof.
  intros Hc. unfold total_pages, posts_per_page.
  pose proof (Z.div_mod (count + 10 - 1) 10 ltac:(lia)) as Hdm.
  pose proof (Z.mod_pos_bound (count + 10 - 1) 10 ltac:(lia)) as Hmod.
  lia.
Qed.

Lemma page_posts_chunk {A} (posts : list A) (k : nat) :
  1 < total_pages (Z.of_nat (length posts)) ->
  (k < Z.to_nat (total_pages (Z.of_nat (length posts))))%nat ->
  page_posts posts (Z.of_nat k + 1) = firstn 10 (skipn (10 * k) posts).
Proof.
  intros Hmany Hk. unfold page_posts.
  destruct (Z.ltb_spec 1 (total_pages (Z.of_nat (length posts)))) as [_ | ?]; [|lia].
  pose proof (total_pages_bounds (Z.of_nat (length posts)) ltac:(lia)) as Hb.
  unfold posts_per_page in *. unfold py_slice.
  replace ((Z.of_nat k + 1 - 1) * 10) with (10 * Z.of_nat k) by lia.
  destruct (Z.ltb_spec (10 * Z.of_nat k) 0) as [? | _]; [lia|].
  destruct (Z.ltb_spec (10 * Z.of_nat k + 10) 0) as [? | _]; [lia|].
  assert (Hstart : Z.min (10 * Z.of_nat k) (Z.of_nat (length posts)) = 10 * Z.of_nat k) by lia.
  rewrite Hstart.
  replace (Z.to_nat (10 * Z.of_nat k)) with (10 * k)%nat by lia.
  destruct (Z.le_ge_cases (10 * Z.of_nat k + 10) (Z.of_nat (length posts))) as [Hle | Hge].
  - rewrite Z.min_l by lia. f_equal. lia.
  - rewrite Z.min_r by lia.
    rewrite (List.firstn_all2 (n := 10)) by (rewrite List.length_skipn; lia).
    apply List.firstn_all2. rewrite List.length_skipn. lia.
Qed.

(** X18.  The post list is cut into pages of ten.  The number of pages is
    the count divided by ten, rounded up.  Every page on offer shows at
    least one post and at most ten, and the pages on offer, one after the
    other, show every post once and in order. *)
Theorem pages_partition_posts {A} (posts : list A) :
  let count := Z.of_nat (length posts) in
  10 * total_pages count - 10 < count <= 10 * total_pages count /\
  (forall page_num, In page_num (page_choices count) ->
     1 <= page_num <= total_pages count /\
     page_posts posts page_num <> [] /\
     (length (page_posts posts page_num) <= 10)%nat) /\
  concat (List.map (page_posts posts) (page_choices count)) = posts.
Proof.
  cbv zeta. set (count := Z.of_nat (length posts)).
  assert (Hcount : count = Z.of_nat (length posts)) by reflexivity.
  clearbody count.
  pose proof (total_pages_bounds count ltac:(lia)) as Hb. unfold posts_per_page in Hb.
  split; [exact Hb|].
  destruct (Z.lt_ge_cases 1 (total_pages count)) as [Hmany | Hfew].
  - assert (Hmany' : 1 < total_pages (Z.of_nat (length posts))) by now rewrite <- Hcount.
    split.
    + intros page_num Hin. unfold page_choices in Hin.
      apply List.in_map_iff in Hin as (k & <- & Hk). apply List.in_seq in Hk.
      split; [lia|].
      rewrite (page_posts_chunk posts k Hmany') by (rewrite <- Hcount; lia).
      assert (Hlen : length (firstn 10 (skipn (10 * k) posts))
                     = Nat.min 10 (length posts - 10 * k)).
      { now rewrite List.length_firstn, List.length_skipn. }
      split; [|lia].
      intros Hnil. rewrite Hnil in Hlen. cbn [length] in Hlen. lia.
    + unfold page_choices. rewrite List.map_map.
      rewrite (List.map_ext_in _ (fun k => firstn 10 (skipn (10 * k) posts))).
      * apply firstn_skipn_chunks. lia.
      * intros k Hk. apply List.in_seq in Hk.
        apply page_posts_chunk; [exact Hmany' | rewrite <- Hcount; lia].
  - assert (Hall : forall page_num, page_posts posts page_num = posts).
    { intros page_num. unfold page_posts. rewrite <- Hcount.
      destruct (Z.ltb_spec 1 (total_pages count)); [lia | reflexivity]. }
    split.
    + intros page_num Hin. unfold page_choices in Hin.
      apply List.in_map_iff in Hin as (k & <- & Hk). apply List.in_seq in Hk.
      rewrite Hall. split; [lia|]. split; [|lia].
      intros ->. simpl in Hcount. lia.
    + unfold page_choices.
      rewrite (List.map_ext _ (fun _ => posts) Hall).
      destruct (Z.to_nat (total_pages count)) as [|[|n]] eqn:Hp.
      * simpl. destruct posts; [reflexivity|]. simpl length in Hcount. lia.
      * simpl. apply app_nil_r.
      * lia.
Qed.

(** *** Page prologues and the connection test *)

(** X19.  The pages that need the accounts.  With accounts held the
    prologue does nothing and the page goes on.  With none held it loads
    them: a failure that carries a message is shown and stops the page; a
    failure without a message, as a falsy 2xx body gives, shows nothing and
    lets the page go on with no accounts. *)
Theorem accounts_prologue_outcomes (now : Z) (s : State) :
  (truthy (accounts s) = true -> accounts_prologue env now s = (Ret true, s)) /\
  (truthy (accounts s) = false ->
   forall data error,
     fst (make_api_request env now (get "/accounts") s) = (data, error) ->
     truthy data = false ->
     let out := accounts_prologue env now s in
     accounts (snd out) = accounts s /\
     (opt_truthy error = true ->
      fst out = Ret false /\
      ui (snd out) = (ui s ++ [UiError ("Failed to load accounts: " ++ fmt_opt error)])%list) /\
     (opt_truthy error = false -> fst out = Ret true /\ ui (snd out) = ui s)).
Proof.
  unfold accounts_prologue, bind, gets, modify, ret. simpl. split.
  - now intros ->.
  - intros Hnone data error Hrun Hfalsy. rewrite Hnone. simpl.
    rewrite load_accounts_unfold. cbv zeta. rewrite Hrun. simpl. rewrite Hfalsy. simpl.
    destruct (request_frame env now (get "/accounts") s) as (_ & _ & Ha & _ & Hu).
    destruct (opt_truthy error); simpl.
    + split; [exact Ha|]. split; [|discriminate]. intros _. now rewrite Hu.
    + split; [exact Ha|]. split; [discriminate|]. intros _. now split.
Qed.

Lemma run_tests_frame (tick : nat -> Z) (endpoints : list (string * string)) :
  forall (i : nat) (s : State),
    let out := run_tests env tick i endpoints s in
    (exists results, fst out = Ret results /\
                     List.map fst results = List.map snd endpoints) /\
    api_key (snd out) = api_key s /\ profiles (snd out) = profiles s /\
    accounts (snd out) = accounts s /\ last_refresh (snd out) = last_refresh s /\
    ui (snd out) = ui s /\
    (client_runs (snd out) <= client_runs s + length endpoints)%nat.
Proof.
  induction endpoints as [|[ep name] rest IH]; intros i s; simpl.
  - split; [now exists []|]. repeat split; lia.
  - unfold bind, call, ret.
    destruct (request_frame env (tick i) (get ep) s) as (Hk & Hp & Ha & Hr & Hu).
    pose proof (request_runs env (tick i) (get ep) s) as Hruns.
    destruct (make_api_request env (tick i) (get ep) s) as [[data error] s1]. simpl in *.
    destruct (IH (S i) s1) as ((results & Hres & Hnames) & Hk' & Hp' & Ha' & Hr' & Hu' & Hc').
    destruct (run_tests env tick (S i) rest s1) as [[others | e] s2]; simpl in *;
      [|discriminate].
    injection Hres as ->.
    split; [eexists; split; [reflexivity | simpl; now rewrite Hnames]|].
    repeat split; try congruence.
    destruct (cached (tick i) (get ep) s); lia.
Qed.

Lemma show_results_frame (results : list (string * (bool * option string))) :
  forall s : State,
    let out := for_each results show_test_result s in
    fst out = Ret tt /\
    api_key (snd out) = api_key s /\ profiles (snd out) = profiles s /\
    accounts (snd out) = accounts s /\ last_refresh (snd out) = last_refresh s /\
    client_runs (snd out) = client_runs s /\
    exists shown,
      ui (snd out) = (ui s ++ shown)%list /\
      Forall2 (fun name event =>
                 event = UiSuccess ("✅ " ++ name ++ ": Connected") \/
                 exists error, event = UiError ("❌ " ++ name ++ ": " ++ fmt_opt error))
              (List.map fst results) shown.
Proof.
  induction results as [|[name [success error]] rest IH]; intros s.
  - simpl. repeat split. exists []. split; [now rewrite app_nil_r | constructor].
  - set (event := if success then UiSuccess ("✅ " ++ name ++ ": Connected")
                  else UiError ("❌ " ++ name ++ ": " ++ fmt_opt error)).
    assert (Hstep : for_each ((name, (success, error)) :: rest) show_test_result s
                    = for_each rest show_test_result (show event s)).
    { subst event. now destruct success. }
    cbv zeta. rewrite Hstep.
    destruct (IH (show event s)) as (H1 & H2 & H3 & H4 & H5 & H6 & shown & H7 & H8).
    repeat split; try assumption.
    exists (event :: shown). split.
    + rewrite H7. simpl. now rewrite <- app_assoc.
    + simpl. constructor; [|exact H8]. subst event. destruct success; eauto.
Qed.

(** X20.  The connection test shows four messages, for "Profiles",
    "Accounts", "Posts" and "Usage Stats" in that order, each either the
    connected message for its name or a failure message for its name.  It
    runs the body at most four times and leaves the key, the two lists and
    the refresh time as they are. *)
Theorem connection_test_reports_each (tick : nat -> Z) (s : State) :
  let out := test_api_connection env tick s in
  fst out = Ret tt /\
  (exists shown,
     ui (snd out) = (ui s ++ shown)%list /\
     Forall2 (fun name event =>
                event = UiSuccess ("✅ " ++ name ++ ": Connected") \/
                exists error, event = UiError ("❌ " ++ name ++ ": " ++ fmt_opt error))
             ["Profiles"; "Accounts"; "Posts"; "Usage Stats"] shown) /\
  api_key (snd out) = api_key s /\ profiles (snd out) = profiles s /\
  accounts (snd out) = accounts s /\ last_refresh (snd out) = last_refresh s /\
  (client_runs (snd out) <= client_runs s + 4)%nat.
Proof.
  unfold test_api_connection, bind.
  destruct (run_tests_frame tick endpoints_to_test 0%nat s)
    as ((results & Hres & Hnames) & Hk & Hp & Ha & Hr & Hu & Hc).
  destruct (run_tests env tick 0 endpoints_to_test s) as [[results' | e] s1];
    simpl in *; [|discriminate].
  injection Hres as ->.
  destruct (show_results_frame results s1)
    as (H1 & H2 & H3 & H4 & H5 & H6 & shown & H7 & H8).
  rewrite Hnames in H8.
  split; [assumption|]. split.
  { exists shown. split; [now rewrite H7, Hu | exact H8]. }
  split; [congruence|]. split; [congruence|]. split; [congruence|].
  split; [congruence | lia].
Qed.

End Further.

(** *** Concrete runs, further *)

Lemma dispatch_shape_witness :
  let r := post_files "/media" [("files", "PNG")] in
  let c := mkCall "POST" "https://getlate.dev/api/v1/media"
             [("Authorization", "Bearer abc123")] JNull JNull (Some [("files", "PNG")]) 60 in
  dispatch "abc123" r = Some c /\
  hc_verb c = "POST" /\ hc_url c = "https://getlate.dev/api/v1/media" /\
  In ("Authorization", "Bearer abc123") (hc_headers c) /\
  (hc_timeout c = 60 /\ hc_files c = Some [("files", "PNG")] /\
   hc_headers c = [("Authorization", "Bearer abc123")]) /\
  hc_params c = JNull /\ hc_json c = JNull.
Proof.
  split; [reflexivity|].
  exact (dispatch_shape "abc123" (post_files "/media" [("files", "PNG")]) _ eq_refl).
Defined.

Lemma one_call_per_request_witness :
  let env := Scenario.always (Scenario.status 200 (JObj [])) in
  let r := mkRequest "/posts" "PATCH" JNull JNull None true ["method"] in
  make_api_request_body env r Scenario.signed_in
  = ((JNull, Some "Request failed: local variable 'response' referenced before assignment"),
     count_run Scenario.signed_in).
Proof.
  destruct (one_call_per_request (Scenario.always (Scenario.status 200 (JObj []))) 0
              (mkRequest "/posts" "PATCH" JNull JNull None true ["method"])
              Scenario.signed_in)
    as (_ & H).
  apply H; [reflexivity | discriminate ..].
Defined.

Lemma classify_success_iff_witness :
  let env := Scenario.always RaisedTimeout in
  snd (classify env (Scenario.status 204 JNull)) <> None /\
  fst (classify env (Scenario.status 204 JNull)) = JNull.
Proof.
  split; [discriminate|].
  destruct (classify_success_iff (Scenario.always RaisedTimeout) (Scenario.status 204 JNull))
    as (_ & H).
  apply H. discriminate.
Defined.

Lemma other_status_message_witness :
  let env := Scenario.always RaisedTimeout in
  let resp := mkResponse 404 "<html>" (inr (JObj [("message", JStr "Not found")])) in
  classify env (Responded resp) = (JNull, Some ("Error " ++ pretty 404 ++ ": " ++ "Not found")).
Proof.
  destruct (other_status_message (Scenario.always RaisedTimeout)
              (mkResponse 404 "<html>" (inr (JObj [("message", JStr "Not found")]))))
    as (Hmsg & Hdetail & _); try (simpl; discriminate).
  cbv zeta. rewrite Hmsg.
  now rewrite (Hdetail [("message", JStr "Not found")] "Not found" eq_refl eq_refl).
Defined.

Lemma use_cache_is_not_read_witness :
  let env := Scenario.always (Scenario.status 200 (JObj [("posts", JArr [])])) in
  let off := mkRequest "/posts" "GET" JNull JNull None false ["use_cache"] in
  cached 0 off Scenario.signed_in = None /\ 10 - 0 < ttl /\
  make_api_request env 10 off (snd (make_api_request env 0 off Scenario.signed_in))
  = (fst (make_api_request env 0 off Scenario.signed_in),
     snd (make_api_request env 0 off Scenario.signed_in)).
Proof.
  split; [reflexivity|]. split; [reflexivity|].
  destruct (use_cache_is_not_read
              (Scenario.always (Scenario.status 200 (JObj [("posts", JArr [])])))
              "/posts" "GET" JNull JNull None ["use_cache"] 0 10 Scenario.signed_in)
    as (_ & H).
  apply H; reflexivity.
Defined.

Lemma key_change_clears_store_witness :
  let env := Scenario.always (Scenario.status 200 (JObj [])) in
  let loaded := snd (make_api_request env 0 (get "/profiles") Scenario.signed_in) in
  let out := on_api_key_input "other" loaded in
  "other" <> api_key loaded /\
  api_key (snd out) = "other" /\ cache (snd out) = ∅ /\
  profiles (snd out) = profiles loaded /\ accounts (snd out) = accounts loaded /\
  last_refresh (snd out) = last_refresh loaded /\
  forall now r,
    client_runs (snd (make_api_request env now r (snd out))) = S (client_runs loaded).
Proof.
  split; [discriminate|].
  destruct (key_change_clears_store (Scenario.always (Scenario.status 200 (JObj [])))
              "other"
              (snd (make_api_request (Scenario.always (Scenario.status 200 (JObj []))) 0
                      (get "/profiles") Scenario.signed_in))) as (_ & _ & H).
  apply H. discriminate.
Defined.

Lemma dropping_is_invisible_witness :
  let env := Scenario.always (Scenario.status 200 (JObj [])) in
  let loaded := snd (make_api_request env 0 (get "/profiles") Scenario.signed_in) in
  let dropped := make_api_request_reaping env 400 (get "/accounts") loaded in
  let kept := make_api_request env 400 (get "/accounts") loaded in
  cache (snd dropped) !! get "/profiles" = None /\
  cache (snd kept) !! get "/profiles" = Some ((JObj [], None), 0) /\
  fst dropped = fst kept /\
  reaped_view 400 (snd dropped) (snd kept).
Proof.
  split; [vm_compute; reflexivity|]. split; [vm_compute; reflexivity|].
  apply (dropping_is_invisible (Scenario.always (Scenario.status 200 (JObj []))) 0 400
           (get "/accounts")).
  - unfold reaped_view. repeat split; try reflexivity. intros r. now left.
  - lia.
Defined.

Lemma refresh_served_from_store_witness :
  let body := JObj [("profiles", JArr [JStr "p1"]); ("accounts", JArr [JStr "a1"])] in
  let env := Scenario.always (Scenario.status 200 body) in
  let loaded := snd (on_refresh env 0 1 2 Scenario.signed_in) in
  let out := on_refresh env 10 11 12 loaded in
  fst out = Ret tt /\
  http_log (snd out) = http_log loaded /\ client_runs (snd out) = client_runs loaded /\
  ui (snd out) = (ui loaded ++ [UiSuccess "Data refreshed successfully!"])%list /\
  last_refresh (snd out) = Some 12 /\
  profiles (snd out) = JArr [JStr "p1"] /\
  accounts (snd out) = JArr [JStr "a1"].
Proof.
  apply (refresh_served_from_store
           (Scenario.always
              (Scenario.status 200
                 (JObj [("profiles", JArr [JStr "p1"]); ("accounts", JArr [JStr "a1"])])))
           10 11 12 _
           [("profiles", JArr [JStr "p1"]); ("accounts", JArr [JStr "a1"])]
           [("profiles", JArr [JStr "p1"]); ("accounts", JArr [JStr "a1"])]
           None None).
  - vm_compute. reflexivity.
  - vm_compute. reflexivity.
  - discriminate.
  - vm_compute. reflexivity.
  - discriminate.
Defined.

Lemma reload_after_create_is_served_witness :
  let env := Scenario.always (Scenario.status 200 (JObj [("profiles", JArr [JStr "old"])])) in
  let loaded := snd (load_profiles env 0 Scenario.signed_in) in
  let out := on_create_profile env 10 11 "Brand" "" "#1f77b4" false loaded in
  fst out = Ret tt /\
  http_log (snd out)
  = http_log (snd (make_api_request env 10
                     (post "/profiles" (profile_body "Brand" "" "#1f77b4" false)) loaded)) /\
  profiles (snd out) = JArr [JStr "old"].
Proof.
  apply (reload_after_create_is_served
           (Scenario.always (Scenario.status 200 (JObj [("profiles", JArr [JStr "old"])])))
           10 11 "Brand" "" "#1f77b4" false _
           [("profiles", JArr [JStr "old"])] None).
  - reflexivity.
  - vm_compute. lia.
  - vm_compute. reflexivity.
  - discriminate.
  - vm_compute. reflexivity.
Defined.

Lemma validate_keeps_session_witness :
  let env := Scenario.always (Scenario.status 200 (JObj [])) in
  validate_api_key env 0 initial = (Ret (false, Some "No API key provided"), initial).
Proof.
  destruct (validate_keeps_session (Scenario.always (Scenario.status 200 (JObj []))) 0 initial)
    as (H & _).
  apply H. reflexivity.
Defined.

Lemma loader_edge_bodies_witness :
  let env := Scenario.always (Scenario.status 200 (JArr [JInt 1])) in
  fst (load_profiles env 0 Scenario.signed_in) = Raise AttributeError /\
  profiles (snd (load_profiles env 0 Scenario.signed_in)) = profiles Scenario.signed_in /\
  exists stamp, 0 - stamp < ttl /\
    forall later, later - stamp < ttl ->
      load_profiles env later (snd (load_profiles env 0 Scenario.signed_in))
      = (Raise AttributeError, snd (load_profiles env 0 Scenario.signed_in)).
Proof.
  destruct (loader_edge_bodies (Scenario.always (Scenario.status 200 (JArr [JInt 1]))) 0
              Scenario.signed_in (JArr [JInt 1]) None) as (_ & H).
  - vm_compute. reflexivity.
  - reflexivity.
  - apply H. discriminate.
Defined.

Lemma profile_name_is_checked_witness :
  let env := Scenario.always (Scenario.status 200 (JObj [])) in
  on_create_profile env 0 1 " é " "" "#1f77b4" false Scenario.signed_in
  = (Ret tt, show (UiError "Profile name must be at least 2 characters") Scenario.signed_in).
Proof.
  destruct (profile_name_is_checked (Scenario.always (Scenario.status 200 (JObj []))) 0 1
              " é " "" "#1f77b4" false Scenario.signed_in) as (H & _).
  apply H. vm_compute. lia.
Defined.

Lemma post_is_valid_iff_witness :
  validate_post Scenario.hello_post = [].
Proof.
  apply (post_is_valid_iff Scenario.hello_post).
  split; [reflexivity|]. split; [discriminate|].
  constructor; [discriminate | constructor].
Defined.

Lemma upload_outcomes_witness :
  let body := JObj [("files", JArr [JObj [("url", JStr "https://cdn/x.png")]])] in
  let env := Scenario.always (Scenario.status 200 body) in
  let run := make_api_request env 0 (post_files "/media" [("files", "PNG")])
               Scenario.signed_in in
  on_upload env 0 "PNG" Scenario.signed_in
  = (Ret (Some (JStr "https://cdn/x.png")),
     show (UiMarkdown ("**URL:** " ++ py_str env (JStr "https://cdn/x.png")))
       (show (UiSuccess "✅ Image uploaded successfully!") (snd run))).
Proof.
  destruct (upload_outcomes
              (Scenario.always
                 (Scenario.status 200
                    (JObj [("files", JArr [JObj [("url", JStr "https://cdn/x.png")]])])))
              0 "PNG" Scenario.signed_in) as (H & _).
  apply (H [("files", JArr [JObj [("url", JStr "https://cdn/x.png")]])]
           [("url", JStr "https://cdn/x.png")] [] (JStr "https://cdn/x.png")).
  - vm_compute. reflexivity.
  - reflexivity.
  - reflexivity.
Defined.

Lemma search_request_parameters_witness :
  let sent := search_request true (JStr "r1") " rocq " "" "" "top" 25 Week false in
  exists r, sent = Some r /\ method r = "GET" /\ endpoint r = "/reddit/search" /\
    exists fields,
      params r = JObj fields /\
      dict_get "q" fields = Some (JStr "rocq") /\
      dict_get "t" fields = Some (JStr "week") /\
      dict_get "restrict_sr" fields = None.
Proof.
  destruct (search_request_parameters true (JStr "r1") " rocq " "" "" "top" 25 Week false)
    as (_ & H).
  eexists. split; [reflexivity|].
  destruct (H _ eq_refl) as (Hm & He & fields & Hp & Hq & Ht & _ & Hr & _).
  split; [exact Hm|]. split; [exact He|].
  exists fields. split; [exact Hp|]. split; [exact Hq|]. split; [exact Ht | exact Hr].
Defined.

Lemma pages_partition_posts_witness :
  let posts := List.seq 0 23 in
  In 3 (page_choices 23) /\
  page_posts posts 3 <> [] /\ (length (page_posts posts 3) <= 10)%nat.
Proof.
  assert (Hin : In 3 (page_choices 23)) by (vm_compute; auto).
  split; [exact Hin|].
  destruct (pages_partition_posts (List.seq 0 23)) as (_ & H & _).
  destruct (H 3 Hin) as (_ & Hne & Hlen). split; [exact Hne | exact Hlen].
Defined.

Lemma accounts_prologue_outcomes_witness :
  let env := Scenario.always (Scenario.status 200 (JObj [])) in
  let out := accounts_prologue env 0 Scenario.signed_in in
  accounts (snd out) = accounts Scenario.signed_in /\
  fst out = Ret true /\ ui (snd out) = ui Scenario.signed_in.
Proof.
  destruct (accounts_prologue_outcomes (Scenario.always (Scenario.status 200 (JObj []))) 0
              Scenario.signed_in) as (_ & H).
  destruct (H eq_refl (JObj []) None) as (Ha & _ & Hsilent).
  - vm_compute. reflexivity.
  - reflexivity.
  - split; [exact Ha|]. apply Hsilent. reflexivity.
Defined.

End App.
